(** * Linear-programming teaching notebooks: models, cells and their properties

    The repository holds Jupyter notebooks.  Every problem cell declares
    decision variables, assembles a linear objective and linear constraints
    from literal tables, hands the model to an external solver and prints
    what comes back.  This development embeds

    - the models the cells build (variables, bounds, objective, constraints),
      with their meaning over the rationals and over the reals;
    - the printing code of every cell, as a function from the solver's
      result to the printed lines;
    - the cells themselves, as programs over the notebook kernel's name
      space, with exceptions and a trace of solver calls and printed lines.

    Decimal literals of the notebooks ([0.8], [0.38], ...) are read as the
    exact rationals they denote; the solvers themselves are external and are
    represented by an arbitrary oracle. *)

From Stdlib Require Import QArith Qround Qabs Lqa Lia ZArith List String Bool.
From Stdlib Require Import Reals Lra.
Import ListNotations.

Local Open Scope Q_scope.

(** ** Decision variables *)

(** [fields = ['I', 'II', 'III']] and [rice_types = ['IR8', 'CBC', 'IR132']]
    of the rice-allocation notebook. *)
Inductive Field := F_I | F_II | F_III.
Inductive Rice := IR8 | CBC | IR132.

Definition fields : list Field := [F_I; F_II; F_III].
Definition rice_types : list Rice := [IR8; CBC; IR132].

(** A handle on a decision variable, as the notebooks address them:
    [x1 .. x4] and list positions ([Xi]), [x[i][j]] ([Xij]) and
    [x[(f, r)]] / [model.x[f, r]] ([Xfr]). *)
Inductive Var :=
| Xi (i : nat)
| Xij (i j : nat)
| Xfr (f : Field) (r : Rice).

Definition Field_eqb (f g : Field) : bool :=
  match f, g with
  | F_I, F_I | F_II, F_II | F_III, F_III => true
  | _, _ => false
  end.

Definition Rice_eqb (r s : Rice) : bool :=
  match r, s with
  | IR8, IR8 | CBC, CBC | IR132, IR132 => true
  | _, _ => false
  end.

Definition Var_eqb (x y : Var) : bool :=
  match x, y with
  | Xi i, Xi i' => Nat.eqb i i'
  | Xij i j, Xij i' j' => Nat.eqb i i' && Nat.eqb j j'
  | Xfr f r, Xfr f' r' => Field_eqb f f' && Rice_eqb r r'
  | _, _ => false
  end.

(** [Continuous]: [NonNegativeReals], [NumVar], a pulp variable without
    [cat], a linprog column.  [Integer]: [NonNegativeIntegers], [IntVar],
    [cat="Integer"]. *)
Inductive Domain := Continuous | Integer.

(** A bound is [None] when it is infinite ([solver.infinity()], [None], or
    not given). *)
Record VarDecl := {
  v_var : Var;
  v_lb : option Q;
  v_ub : option Q;
  v_dom : Domain
}.

(** ** Linear expressions and constraints *)

Record LinExpr := {
  le_terms : list (Q * Var);
  le_const : Q
}.

Definition lin (ts : list (Q * Var)) : LinExpr :=
  {| le_terms := ts; le_const := 0 |}.
Definition cst (q : Q) : LinExpr :=
  {| le_terms := []; le_const := q |}.
Definition var (x : Var) : LinExpr := lin [(1, x)].

Inductive Rel := Le | Ge | Eq.

(** A constraint as the source writes it: both sides of the comparison are
    kept.  [c_name] is the attribute name of a Pyomo component, empty for
    the libraries that do not name constraints. *)
Record Constraint := {
  c_name : string;
  c_lhs : LinExpr;
  c_rel : Rel;
  c_rhs : LinExpr
}.

Definition con (l : LinExpr) (r : Rel) (rhs : LinExpr) : Constraint :=
  {| c_name := EmptyString; c_lhs := l; c_rel := r; c_rhs := rhs |}.

Declare Scope lp_scope.
Delimit Scope lp_scope with lp.
Notation "c *: x" := ((c, x) : Q * Var) (at level 40, no associativity) : lp_scope.
Notation "e <=! q" := (con e Le (cst q)) (at level 70, no associativity) : lp_scope.
Notation "e >=! q" := (con e Ge (cst q)) (at level 70, no associativity) : lp_scope.
Notation "e ==! q" := (con e Eq (cst q)) (at level 70, no associativity) : lp_scope.
Local Open Scope lp_scope.

Inductive Sense := Maximize | Minimize.

Record Model := {
  m_vars : list VarDecl;
  m_sense : Sense;
  m_objective : LinExpr;
  m_constraints : list Constraint
}.

(** A freshly created model: [ConcreteModel()], [pulp.LpProblem(name, sense)],
    [pywraplp.Solver.CreateSolver(backend)]. *)
Definition new_model (s : Sense) : Model :=
  {| m_vars := []; m_sense := s; m_objective := cst 0; m_constraints := [] |}.

Definition add_var (d : VarDecl) (m : Model) : Model :=
  {| m_vars := m_vars m ++ [d]; m_sense := m_sense m;
     m_objective := m_objective m; m_constraints := m_constraints m |}.

Definition add_vars (ds : list VarDecl) (m : Model) : Model :=
  fold_left (fun acc d => add_var d acc) ds m.

Definition set_objective (s : Sense) (e : LinExpr) (m : Model) : Model :=
  {| m_vars := m_vars m; m_sense := s;
     m_objective := e; m_constraints := m_constraints m |}.

(** [solver.Add(c)], [prob += c]: the constraint is appended. *)
Definition add_constraint (c : Constraint) (m : Model) : Model :=
  {| m_vars := m_vars m; m_sense := m_sense m;
     m_objective := m_objective m; m_constraints := m_constraints m ++ [c] |}.

Definition add_constraints (cs : list Constraint) (m : Model) : Model :=
  fold_left (fun acc c => add_constraint c acc) cs m.

(** [model.name = Constraint(expr=...)]: Pyomo stores the component under
    the attribute name and replaces a component already stored there (the
    "Implicitly replacing the Component attribute" warning). *)
Fixpoint replace_named (n : string) (c : Constraint) (cs : list Constraint)
  : option (list Constraint) :=
  match cs with
  | [] => None
  | c' :: cs' =>
      if String.eqb (c_name c') n then Some (c :: cs')
      else option_map (cons c') (replace_named n c cs')
  end.

Definition set_component (n : string) (c : Constraint) (m : Model) : Model :=
  let c' := {| c_name := n; c_lhs := c_lhs c; c_rel := c_rel c; c_rhs := c_rhs c |} in
  {| m_vars := m_vars m; m_sense := m_sense m; m_objective := m_objective m;
     m_constraints :=
       match replace_named n c' (m_constraints m) with
       | Some cs => cs
       | None => m_constraints m ++ [c']
       end |}.

Notation "m |> f" := (f m) (at level 45, left associativity, only parsing) : lp_scope.

(** Variable declarations of the four libraries. *)
Definition NumVar (lb : Q) (ub : option Q) (x : Var) : VarDecl :=
  {| v_var := x; v_lb := Some lb; v_ub := ub; v_dom := Continuous |}.
Definition IntVar (lb : Q) (ub : option Q) (x : Var) : VarDecl :=
  {| v_var := x; v_lb := Some lb; v_ub := ub; v_dom := Integer |}.
(** [solver.infinity()] *)
Definition infinity : option Q := None.

(** [pulp.LpVariable(name, lowBound=lb)] and [..., cat="Integer"] *)
Definition LpVariable (lowBound : Q) (cat : Domain) (x : Var) : VarDecl :=
  {| v_var := x; v_lb := Some lowBound; v_ub := None; v_dom := cat |}.

(** [Var(within=NonNegativeReals)], [Var(..., domain=NonNegativeIntegers)] *)
Definition NonNegativeReals (x : Var) : VarDecl :=
  {| v_var := x; v_lb := Some 0; v_ub := None; v_dom := Continuous |}.
Definition NonNegativeIntegers (x : Var) : VarDecl :=
  {| v_var := x; v_lb := Some 0; v_ub := None; v_dom := Integer |}.

(** ** Meaning of a model over an ordered carrier *)

Section Semantics.
Variable A : Type.
Variable ofQ : Q -> A.
Variables add mul : A -> A -> A.
Variables le eq : A -> A -> Prop.

Definition eval_terms (a : Var -> A) (ts : list (Q * Var)) (start : A) : A :=
  fold_left (fun acc t => add acc (mul (ofQ (fst t)) (a (snd t)))) ts start.

Definition eval (a : Var -> A) (e : LinExpr) : A :=
  eval_terms a (le_terms e) (ofQ (le_const e)).

Definition holds (a : Var -> A) (c : Constraint) : Prop :=
  match c_rel c with
  | Le => le (eval a (c_lhs c)) (eval a (c_rhs c))
  | Ge => le (eval a (c_rhs c)) (eval a (c_lhs c))
  | Eq => eq (eval a (c_lhs c)) (eval a (c_rhs c))
  end.

Definition in_bounds (a : Var -> A) (d : VarDecl) : Prop :=
  match v_lb d with Some l => le (ofQ l) (a (v_var d)) | None => True end /\
  match v_ub d with Some u => le (a (v_var d)) (ofQ u) | None => True end.

Fixpoint all_hold {X : Type} (P : X -> Prop) (l : list X) : Prop :=
  match l with
  | [] => True
  | x :: l' => P x /\ all_hold P l'
  end.

(** The declared bounds and every constraint hold (integrality apart). *)
Definition feasible (m : Model) (a : Var -> A) : Prop :=
  all_hold (in_bounds a) (m_vars m) /\ all_hold (holds a) (m_constraints m).
End Semantics.

Arguments all_hold {X} P l.

(** Over the rationals. *)
Definition evalQ := eval Q (fun q => q) Qplus Qmult.
Definition holdsQ := holds Q (fun q => q) Qplus Qmult Qle Qeq.
Definition in_boundsQ := in_bounds Q (fun q => q) Qle.
Definition feasibleQ := feasible Q (fun q => q) Qplus Qmult Qle Qeq.

(** Over the reals. *)
Definition evalR := eval R Q2R Rplus Rmult.
Definition feasibleR := feasible R Q2R Rplus Rmult Rle (@Logic.eq R).

(** A rational is an integer when it equals its floor. *)
Definition is_integer (q : Q) : Prop := inject_Z (Qfloor q) == q.

Definition integral_var (a : Var -> Q) (d : VarDecl) : Prop :=
  match v_dom d with
  | Integer => is_integer (a (v_var d))
  | Continuous => True
  end.

(** What the solver may return for the model: bounds, constraints and the
    integrality of the variables declared integer. *)
Definition mip_feasible (m : Model) (a : Var -> Q) : Prop :=
  feasibleQ m a /\ all_hold (integral_var a) (m_vars m).

Definition objective_at (m : Model) (a : Var -> Q) : Q := evalQ a (m_objective m).

Definition no_worse (s : Sense) (best v : Q) : Prop :=
  match s with
  | Maximize => v <= best
  | Minimize => best <= v
  end.

(** [v] is the optimal objective value of [m]: some solution attains it and
    none does better. *)
Definition optimal_value (m : Model) (v : Q) : Prop :=
  (exists a, mip_feasible m a /\ objective_at m a == v) /\
  (forall a, mip_feasible m a -> no_worse (m_sense m) v (objective_at m a)).

(** The same tests as boolean functions, for evaluating a given assignment. *)
Definition holdsb (a : Var -> Q) (c : Constraint) : bool :=
  match c_rel c with
  | Le => Qle_bool (evalQ a (c_lhs c)) (evalQ a (c_rhs c))
  | Ge => Qle_bool (evalQ a (c_rhs c)) (evalQ a (c_lhs c))
  | Eq => Qeq_bool (evalQ a (c_lhs c)) (evalQ a (c_rhs c))
  end.

Definition in_boundsb (a : Var -> Q) (d : VarDecl) : bool :=
  match v_lb d with Some l => Qle_bool l (a (v_var d)) | None => true end
  && match v_ub d with Some u => Qle_bool (a (v_var d)) u | None => true end.

Definition integral_varb (a : Var -> Q) (d : VarDecl) : bool :=
  match v_dom d with
  | Integer => Qeq_bool (inject_Z (Qfloor (a (v_var d)))) (a (v_var d))
  | Continuous => true
  end.

Definition mip_feasibleb (m : Model) (a : Var -> Q) : bool :=
  forallb (in_boundsb a) (m_vars m)
  && forallb (holdsb a) (m_constraints m)
  && forallb (integral_varb a) (m_vars m).

(** The relaxation has a solution over the reals. *)
Definition feasible_in_reals (m : Model) : Prop := exists a : Var -> R, feasibleR m a.

(** The model has a solution respecting integrality. *)
Definition feasible_in_integers (m : Model) : Prop := exists a : Var -> Q, mip_feasible m a.

(** ** Python idioms used by the cells *)

(** [range(n)] and [range(a, b)] *)
Definition range (n : nat) : list nat := seq 0 n.
Definition range2 (a b : nat) : list nat := seq a (b - a).

(** [[f(x, y) for x in xs for y in ys]] *)
Definition for2 {X Y Z : Type} (xs : list X) (ys : list Y) (f : X -> Y -> Z) : list Z :=
  flat_map (fun x => map (f x) ys) xs.

(** [l[i]] and [l[i][j]] on the literal tables; every index the cells use
    is produced by [range(len(l))], so the default is never reached. *)
Definition idx (l : list Q) (i : nat) : Q := nth i l 0.
Definition idx2 (l : list (list Q)) (i j : nat) : Q := nth j (nth i l []) 0.

(** ** The rice-allocation notebook *)

Module RiceNotebook.

(** *** OR-tools (SCIP) *)

(** [solver = pywraplp.Solver.CreateSolver('SCIP')] *)
Definition create_solver : Model := new_model Minimize.

(** [for f in fields: for r in rice_types:
       x[(f, r)] = solver.IntVar(0, solver.infinity(), ...)] *)
Definition declare_x (solver : Model) : Model :=
  solver |> add_vars (for2 fields rice_types (fun f r => IntVar 0 infinity (Xfr f r))).

Definition yield_matrix (f : Field) (r : Rice) : Q :=
  match f, r with
  | F_I, IR8 => 4 | F_I, CBC => 6 | F_I, IR132 => 5
  | F_II, IR8 => 8 | F_II, CBC => 9 | F_II, IR132 => 4
  | F_III, IR8 => 6 | F_III, CBC => 7 | F_III, IR132 => 6
  end.

(** The objective and the six constraints of the fourth code cell. *)
Definition add_objective_and_constraints (solver : Model) : Model :=
  solver
  |> set_objective Maximize
       (lin (for2 fields rice_types (fun f r => yield_matrix f r *: Xfr f r)))
  |> add_constraint (lin (map (fun f => 1 *: Xfr f IR8) fields) ==! 30)
  |> add_constraint (lin (map (fun f => 1 *: Xfr f CBC) fields) ==! 20)
  |> add_constraint (lin (map (fun f => 1 *: Xfr f IR132) fields) ==! 40)
  |> add_constraint (lin (map (fun r => 1 *: Xfr F_I r) rice_types) ==! 25)
  |> add_constraint (lin (map (fun r => 1 *: Xfr F_II r) rice_types) ==! 25)
  |> add_constraint (lin (map (fun r => 1 *: Xfr F_III r) rice_types) ==! 40).

(** [solver.Add(x[('I', 'IR8')] == 0)] of scenario b. *)
Definition forbid_ir8_on_field_i (solver : Model) : Model :=
  solver |> add_constraint (var (Xfr F_I IR8) ==! 0).

Definition ortools_a : Model :=
  create_solver |> declare_x |> add_objective_and_constraints.
Definition ortools_b : Model := ortools_a |> forbid_ir8_on_field_i.

(** *** Pyomo (CPLEX) *)

(** [model = ConcreteModel()] *)
Definition concrete_model : Model := new_model Minimize.

(** [model.x = Var(fields, rice_types, domain=NonNegativeIntegers)] *)
Definition declare_model_x (model : Model) : Model :=
  model |> add_vars (for2 fields rice_types (fun f r => NonNegativeIntegers (Xfr f r))).

Definition yield_coefficients (k : Field * Rice) : Q :=
  match k with
  | (F_I, IR8) => 4 | (F_I, CBC) => 6 | (F_I, IR132) => 5
  | (F_II, IR8) => 8 | (F_II, CBC) => 9 | (F_II, IR132) => 4
  | (F_III, IR8) => 6 | (F_III, CBC) => 7 | (F_III, IR132) => 6
  end.

Definition set_objective_and_constraints (model : Model) : Model :=
  model
  |> set_objective Maximize
       (lin (for2 fields rice_types (fun f r => yield_coefficients (f, r) *: Xfr f r)))
  |> set_component "total_hectares_ir8" (lin (map (fun f => 1 *: Xfr f IR8) fields) ==! 30)
  |> set_component "total_hectares_cbc" (lin (map (fun f => 1 *: Xfr f CBC) fields) ==! 20)
  |> set_component "total_hectares_ir132" (lin (map (fun f => 1 *: Xfr f IR132) fields) ==! 40)
  |> set_component "total_field_i" (lin (map (fun r => 1 *: Xfr F_I r) rice_types) ==! 25)
  |> set_component "total_field_ii" (lin (map (fun r => 1 *: Xfr F_II r) rice_types) ==! 25)
  |> set_component "total_field_iii" (lin (map (fun r => 1 *: Xfr F_III r) rice_types) ==! 40).

(** [model.no_ir8_field_i = Constraint(expr=model.x['I', 'IR8'] == 0)] *)
Definition set_no_ir8_field_i (model : Model) : Model :=
  model |> set_component "no_ir8_field_i" (var (Xfr F_I IR8) ==! 0).

Definition pyomo_a : Model :=
  concrete_model |> declare_model_x |> set_objective_and_constraints.
Definition pyomo_b : Model := pyomo_a |> set_no_ir8_field_i.

End RiceNotebook.

(** *** pulp: [LP_Problem_8a] and [LP_Problem_8b]

    The same two cells close the rice-allocation notebook and both copies
    of the eight-problem notebook. *)

Definition rice_type : list Q := [30; 20; 40].
Definition field_type : list Q := [25; 25; 40].
Definition productivity8a : list (list Q) := [[4; 8; 6]; [6; 9; 7]; [5; 4; 6]].
Definition productivity8b : list (list Q) := [[0; 8; 6]; [6; 9; 7]; [5; 4; 6]].

(** The body shared by the transportation-shaped pulp cells: a grid of
    integer variables [x[i][j]], the objective summed column by column, one
    equality per row and one per column. *)
Definition pulp_grid (sense : Sense) (rows cols : list Q) (coef : list (list Q)) : Model :=
  let dim_i := List.length rows in
  let dim_j := List.length cols in
  new_model sense
  |> add_vars (for2 (range dim_i) (range dim_j) (fun i j => LpVariable 0 Integer (Xij i j)))
  |> set_objective sense
       (lin (for2 (range dim_j) (range dim_i) (fun j i => idx2 coef i j *: Xij i j)))
  |> add_constraints
       (map (fun i => lin (map (fun j => 1 *: Xij i j) (range dim_j)) ==! idx rows i)
            (range dim_i))
  |> add_constraints
       (map (fun j => lin (map (fun i => 1 *: Xij i j) (range dim_i)) ==! idx cols j)
            (range dim_j)).

Definition LP_Problem_8a : Model := pulp_grid Maximize rice_type field_type productivity8a.
Definition LP_Problem_8b : Model := pulp_grid Maximize rice_type field_type productivity8b.

(** *** Recorded solutions

    The assignments stored in the notebooks' output cells. *)

(** OR-tools, scenarios a and b, and CPLEX scenario b. *)
Definition printed_rice_ortools (x : Var) : Q :=
  match x with
  | Xfr F_I IR8 => 0 | Xfr F_I CBC => 20 | Xfr F_I IR132 => 5
  | Xfr F_II IR8 => 25 | Xfr F_II CBC => 0 | Xfr F_II IR132 => 0
  | Xfr F_III IR8 => 5 | Xfr F_III CBC => 0 | Xfr F_III IR132 => 35
  | _ => 0
  end.

(** pulp in the rice-allocation notebook, 8a and 8b. *)
Definition printed_rice_pulp (x : Var) : Q :=
  match x with
  | Xij 0 0 => 0 | Xij 0 1 => 25 | Xij 0 2 => 5
  | Xij 1 0 => 20 | Xij 1 1 => 0 | Xij 1 2 => 0
  | Xij 2 0 => 5 | Xij 2 1 => 0 | Xij 2 2 => 35
  | _ => 0
  end.

(** pulp in the eight-problem notebook, 8a and 8b. *)
Definition printed_problem8 (x : Var) : Q :=
  match x with
  | Xij 0 0 => 0 | Xij 0 1 => 25 | Xij 0 2 => 5
  | Xij 1 0 => 0 | Xij 1 1 => 0 | Xij 1 2 => 20
  | Xij 2 0 => 25 | Xij 2 1 => 0 | Xij 2 2 => 15
  | _ => 0
  end.

(** ** The eight-problem notebook

    The file holds two notebook documents.  [Problems] is the first one, in
    which OR-tools cells were added to Problems 1, 2, 3 and 5;
    [ProblemsOriginal] is the second one. *)

Definition x1 : Var := Xi 1.
Definition x2 : Var := Xi 2.
Definition x3 : Var := Xi 3.
Definition x4 : Var := Xi 4.

(** [for i in range(1,5): model.add_component(f"x{i}", Var(within=NonNegativeReals))] *)
Definition pyomo_x1_x4 (model : Model) : Model :=
  model |> add_vars (map (fun i => NonNegativeReals (Xi i)) (range2 1 5)).

(** [x1, x2, x3, x4 = [pulp.LpVariable(f"x{i}", lowBound=0, ...) for i in range(4)]]:
    the variable created at position [i] is bound to the Python name
    [x(i+1)], by which the rest of the cell refers to it. *)
Definition pulp_x1_x4 (cat : Domain) (prob : Model) : Model :=
  prob |> add_vars (map (fun i => LpVariable 0 cat (Xi (S i))) (range 4)).

(** [x1 = solver.NumVar(0, solver.infinity(), "x1")] ... [x4 = ...] *)
Definition ortools_x1_x4 (mk : Q -> option Q -> Var -> VarDecl) (solver : Model) : Model :=
  solver
  |> add_var (mk 0 infinity x1) |> add_var (mk 0 infinity x2)
  |> add_var (mk 0 infinity x3) |> add_var (mk 0 infinity x4).

Definition resource : Q := 500.

Definition factory : list Q := [5; 15; 20; 30].
Definition warehouse6a : list Q := [10; 10; 10; 20; 20].
Definition warehouse6b : list Q := [10; 10; 15; 15; 20].
Definition distance : list (list Q) :=
  [[5; 1; 4; 6; 7]; [3; 4; 2; 7; 8]; [4; 3; 1; 7; 9]; [6; 5; 4; 9; 11]].

Module Problems.

(** *** Problem 1 *)

(** a) Pyomo with glpk *)
Definition problem1a_pyomo : Model :=
  new_model Minimize
  |> pyomo_x1_x4
  |> set_objective Maximize (lin [0.8 *: x1; 0.3 *: x2; 0.38 *: x3; 0.4 *: x4])
  |> set_component "con1" (lin [0.5 *: x1; 0.2 *: x2; 0.3 *: x3; 0.6 *: x4] <=! 600)
  |> set_component "con2" (lin [0.1 *: x1; 0.4 *: x2; 0.2 *: x3; 0.5 *: x4] <=! 800).

(** b) Pyomo with cbc *)
Definition problem1b_pyomo : Model :=
  new_model Minimize
  |> pyomo_x1_x4
  |> set_objective Maximize (lin [0.8 *: x1; 0.3 *: x2; 0.5 *: x3; 0.4 *: x4])
  |> set_component "con1" (lin [0.5 *: x1; 0.2 *: x2; 0.3 *: x3; 0.6 *: x4] <=! 600)
  |> set_component "con2" (lin [0.1 *: x1; 0.4 *: x2; 0.2 *: x3; 0.5 *: x4] <=! 800)
  |> set_component "con3" (lin [1 *: x1; 1 *: x2] >=! 1000).

(** a) OR-tools with GLOP *)
Definition build_problem1a_ortools (solver : Model) : Model :=
  solver
  |> ortools_x1_x4 NumVar
  |> add_constraint (lin [0.5 *: x1; 0.2 *: x2; 0.3 *: x3; 0.6 *: x4] <=! 600)
  |> add_constraint (lin [0.1 *: x1; 0.4 *: x2; 0.2 *: x3; 0.4 *: x4] <=! 800)
  |> set_objective Maximize (lin [0.8 *: x1; 0.3 *: x2; 0.38 *: x3; 0.4 *: x4]).
Definition problem1a_ortools : Model := new_model Minimize |> build_problem1a_ortools.

(** b) OR-tools with GLOP *)
Definition build_problem1b_ortools (solver : Model) : Model :=
  solver
  |> ortools_x1_x4 NumVar
  |> add_constraint (lin [1 *: x1; 1 *: x2] >=! 1000)
  |> add_constraint (lin [0.5 *: x1; 0.2 *: x2; 0.3 *: x3; 0.6 *: x4] <=! 600)
  |> add_constraint (lin [0.1 *: x1; 0.4 *: x2; 0.2 *: x3; 0.4 *: x4] <=! 800)
  |> set_objective Maximize (lin [0.8 *: x1; 0.3 *: x2; 0.5 *: x3; 0.4 *: x4]).
Definition problem1b_ortools : Model := new_model Minimize |> build_problem1b_ortools.

(** *** Problem 2 *)

Definition LP_Problem_2 : Model :=
  new_model Maximize
  |> pulp_x1_x4 Continuous
  |> set_objective Maximize (lin [0.07 *: x1; 0.08 *: x2; 0.1 *: x3; 0.11 *: x4])
  |> add_constraint (var x1 <=! 100)
  |> add_constraint (var x2 <=! 100)
  |> add_constraint (var x3 <=! 150)
  |> add_constraint (var x4 <=! 150)
  |> add_constraint (lin [1 *: x2; 1 *: x3] >=! 0.5 * resource)
  |> add_constraint (var x1 >=! 0.1 * resource).

Definition problem2_pyomo : Model :=
  new_model Minimize
  |> pyomo_x1_x4
  |> set_objective Maximize (lin [0.07 *: x1; 0.08 *: x2; 0.1 *: x3; 0.11 *: x4])
  |> set_component "con1" (var x1 <=! 100)
  |> set_component "con2" (var x2 <=! 100)
  |> set_component "con3" (var x3 <=! 150)
  |> set_component "con4" (var x4 <=! 150)
  |> set_component "con5" (var x1 >=! 0.1 * resource)
  |> set_component "con6" (lin [1 *: x2; 1 *: x3] >=! 0.5 * resource).

Definition build_problem2_ortools (solver : Model) : Model :=
  solver
  |> ortools_x1_x4 NumVar
  |> add_constraint (lin [1 *: x1; 1 *: x2; 1 *: x3; 1 *: x4] ==! 500)
  |> add_constraint (var x1 <=! 100)
  |> add_constraint (var x2 <=! 100)
  |> add_constraint (var x3 <=! 150)
  |> add_constraint (var x4 <=! 150)
  |> add_constraint (lin [1 *: x2; 1 *: x3] >=! 250)
  |> add_constraint (var x1 >=! 50)
  |> set_objective Maximize (lin [0.07 *: x1; 0.08 *: x2; 0.1 *: x3; 0.11 *: x4]).
Definition problem2_ortools : Model := new_model Minimize |> build_problem2_ortools.

(** *** Problem 3 *)

Definition LP_Problem_3 : Model :=
  new_model Maximize
  |> pulp_x1_x4 Integer
  |> set_objective Maximize (lin [1000 *: x1; 1500 *: x2; 2500 *: x3; 3000 *: x4])
  |> add_constraint (var x1 >=! 5)
  |> add_constraint (var x2 >=! 5)
  |> add_constraint (var x3 >=! 5)
  |> add_constraint (var x4 >=! 5)
  |> add_constraint (lin [1 *: x1; 1 *: x2; 1 *: x3; 1 *: x4] ==! 50)
  |> add_constraint (lin [9 *: x1; 25 *: x2; 35 *: x3; 43 *: x4] <=! 1460).

Definition build_problem3_ortools (solver : Model) : Model :=
  solver
  |> ortools_x1_x4 IntVar
  |> add_constraint (lin [1 *: x1; 1 *: x2; 1 *: x3; 1 *: x4] ==! 50)
  |> add_constraint (lin [9 *: x1; 25 *: x2; 25 *: x3; 43 *: x4] <=! 1460)
  |> add_constraint (var x1 >=! 5)
  |> add_constraint (var x2 >=! 5)
  |> add_constraint (var x3 >=! 5)
  |> add_constraint (var x4 >=! 5)
  |> set_objective Maximize (lin [1000 *: x1; 1500 *: x2; 2500 *: x3; 3000 *: x4]).
Definition problem3_ortools : Model := new_model Minimize |> build_problem3_ortools.

(** *** Problem 4 *)

(** The third constraint is written with decision variables on both sides:
    [prob += 30*x1 + 28*x3 == 25*x2 + 20*x4]. *)
Definition balance_constraint : Constraint :=
  con (lin [30 *: x1; 28 *: x3]) Eq (lin [25 *: x2; 20 *: x4]).

Definition LP_Problem_4 : Model :=
  new_model Maximize
  |> pulp_x1_x4 Integer
  |> set_objective Maximize (lin [30 *: x1; 25 *: x2; 28 *: x3; 20 *: x4])
  |> add_constraint (lin [1 *: x1; 1 *: x2] ==! 32)
  |> add_constraint (lin [1 *: x3; 1 *: x4] ==! 20)
  |> add_constraint balance_constraint.

(** *** Problem 5 (OR-tools, GLOP) *)

Definition coefficients : list Q := [250000; 350000; 380000; 850000].

(** [constraints = [{'coefficients': [...], 'upper_bound': ...}, ...]] *)
Definition constraints : list (list Q * Q) :=
  [([0.08; 0.12; 0.3; 0.21], 350);
   ([4; 9; 7; 12], 1000);
   ([1; 1; 3; 40], 2500)].

(** [variables = [solver.IntVar(0, solver.infinity(), name) for name in names]]:
    the handles are the positions in [variables].  Each
    [solver.Constraint(-solver.infinity(), ub)] is a row bounded above only. *)
Definition build_problem5_ortools (solver : Model) : Model :=
  let variables := map Xi (range 4) in
  solver
  |> add_vars (map (IntVar 0 infinity) variables)
  |> set_objective Maximize (lin (combine coefficients variables))
  |> add_constraints
       (map (fun cons_data => lin (combine (fst cons_data) variables) <=! snd cons_data)
            constraints).
Definition problem5_ortools : Model := new_model Minimize |> build_problem5_ortools.

(** *** Problem 6 *)

Definition LP_Problem_6a : Model := pulp_grid Minimize factory warehouse6a distance.
Definition LP_Problem_6b : Model := pulp_grid Minimize factory warehouse6b distance.

(** Pyomo with couenne: [model.x = Var(range(dim_i), range(dim_j), ...)],
    the objective summed row by row, and the two indexed constraints
    [factory_constr] and [warehouse_constr]. *)
Definition named (n : string) (c : Constraint) : Constraint :=
  {| c_name := n; c_lhs := c_lhs c; c_rel := c_rel c; c_rhs := c_rhs c |}.

Definition problem6a_pyomo : Model :=
  let dim_i := List.length factory in
  let dim_j := List.length warehouse6a in
  new_model Minimize
  |> add_vars (for2 (range dim_i) (range dim_j) (fun i j => NonNegativeIntegers (Xij i j)))
  |> set_objective Minimize
       (lin (for2 (range dim_i) (range dim_j) (fun i j => idx2 distance i j *: Xij i j)))
  |> add_constraints
       (map (fun i => named "factory_constr"
                        (lin (map (fun j => 1 *: Xij i j) (range dim_j)) ==! idx factory i))
            (range dim_i))
  |> add_constraints
       (map (fun j => named "warehouse_constr"
                        (lin (map (fun i => 1 *: Xij i j) (range dim_i)) ==! idx warehouse6a j))
            (range dim_j)).

(** *** Problem 7 (SciPy linprog) *)

Definition obj_fun : list Q := [-10; -8; -7; -8; -9; -11].
Definition lhs_eq : list (list Q) :=
  [[1; 1; 1; 0; 0; 0];
   [0; 0; 0; 1; 1; 1];
   [1; 0; 0; 1; 0; 0];
   [0; 1; 0; 0; 1; 0];
   [0; 0; 1; 0; 0; 1]].
Definition rhs_eq : list Q := [2; 3; 1; 2; 3].
(** [bounds = [(0, None)] * 6] *)
Definition bounds : list (option Q * option Q) := repeat (Some 0, None) 6.

(** [linprog(c, A_ub=A, b_ub=b, bounds=bounds)] minimises [c . x] subject
    to [A x <= b]; column [k] is the handle [Xi k]. *)
Definition linprog (c : list Q) (A_ub : list (list Q)) (b_ub : list Q)
    (bnds : list (option Q * option Q)) : Model :=
  let columns := map Xi (range (List.length c)) in
  new_model Minimize
  |> add_vars (map (fun xb => {| v_var := fst xb; v_lb := fst (snd xb);
                                 v_ub := snd (snd xb); v_dom := Continuous |})
                   (combine columns bnds))
  |> set_objective Minimize (lin (combine c columns))
  |> add_constraints
       (map (fun rb => lin (combine (fst rb) columns) <=! snd rb) (combine A_ub b_ub)).

Definition problem7 : Model := linprog obj_fun lhs_eq rhs_eq bounds.

End Problems.

Module ProblemsOriginal.

(** Problems 1, 2, 4, 6, 7 and 8 build the same models as in [Problems]
    (the Pyomo cells differ in the solver's executable path only). *)

(** Problem 3: the capacity row reads [25 * x3] here. *)
Definition LP_Problem_3 : Model :=
  new_model Maximize
  |> pulp_x1_x4 Integer
  |> set_objective Maximize (lin [1000 *: x1; 1500 *: x2; 2500 *: x3; 3000 *: x4])
  |> add_constraint (var x1 >=! 5)
  |> add_constraint (var x2 >=! 5)
  |> add_constraint (var x3 >=! 5)
  |> add_constraint (var x4 >=! 5)
  |> add_constraint (lin [1 *: x1; 1 *: x2; 1 *: x3; 1 *: x4] ==! 50)
  |> add_constraint (lin [9 *: x1; 25 *: x2; 25 *: x3; 43 *: x4] <=! 1460).

(** Problem 5 with pulp:
    [xA, xB, xC, xD = [pulp.LpVariable(f"x{i}", lowBound=0, cat="Integer") for i in ["A", "B", "C", "D"]]] *)
Definition xA : Var := Xi 0.
Definition xB : Var := Xi 1.
Definition xC : Var := Xi 2.
Definition xD : Var := Xi 3.

Definition LP_Problem_5 : Model :=
  new_model Maximize
  |> add_vars (map (LpVariable 0 Integer) [xA; xB; xC; xD])
  |> set_objective Maximize (lin [250000 *: xA; 350000 *: xB; 380000 *: xC; 850000 *: xD])
  |> add_constraint (lin [0.08 *: xA; 0.12 *: xB; 0.3 *: xC; 0.21 *: xD] <=! 350)
  |> add_constraint (lin [4 *: xA; 9 *: xB; 7 *: xC; 12 *: xD] <=! 1000)
  |> add_constraint (lin [1 *: xA; 1 *: xB; 3 *: xC; 40 *: xD] <=! 2500).

End ProblemsOriginal.

(** Every model a cell of the repository hands to a solver, notebook by
    notebook, in document order. *)
Definition rice_notebook_models : list Model :=
  [RiceNotebook.ortools_a; RiceNotebook.ortools_b;
   RiceNotebook.pyomo_a; RiceNotebook.pyomo_b;
   LP_Problem_8a; LP_Problem_8b].

Definition problems_models : list Model :=
  [Problems.problem1a_pyomo; Problems.problem1b_pyomo;
   Problems.problem1a_ortools; Problems.problem1b_ortools;
   Problems.LP_Problem_2; Problems.problem2_pyomo; Problems.problem2_ortools;
   Problems.LP_Problem_3; Problems.problem3_ortools;
   Problems.LP_Problem_4;
   Problems.problem5_ortools;
   Problems.LP_Problem_6a; Problems.problem6a_pyomo; Problems.LP_Problem_6b;
   Problems.problem7;
   LP_Problem_8a; LP_Problem_8b].

Definition problems_original_models : list Model :=
  [Problems.problem1a_pyomo; Problems.problem1b_pyomo;
   Problems.LP_Problem_2; Problems.problem2_pyomo;
   ProblemsOriginal.LP_Problem_3;
   Problems.LP_Problem_4;
   ProblemsOriginal.LP_Problem_5;
   Problems.LP_Problem_6a; Problems.LP_Problem_6b;
   Problems.problem7;
   LP_Problem_8a; LP_Problem_8b].

Definition all_models : list Model :=
  rice_notebook_models ++ problems_models ++ problems_original_models.

(** ** Comparing two models as mathematical programs *)

(** The coefficient of [x] in [e]: its occurrences summed. *)
Definition coefficient (e : LinExpr) (x : Var) : Q :=
  fold_left (fun acc t => if Var_eqb (snd t) x then acc + fst t else acc) (le_terms e) 0.

Definition Rel_eqb (r s : Rel) : bool :=
  match r, s with
  | Le, Le | Ge, Ge | Eq, Eq => true
  | _, _ => false
  end.

Definition Sense_eqb (r s : Sense) : bool :=
  match r, s with
  | Maximize, Maximize | Minimize, Minimize => true
  | _, _ => false
  end.

Definition Domain_eqb (r s : Domain) : bool :=
  match r, s with
  | Continuous, Continuous | Integer, Integer => true
  | _, _ => false
  end.

Definition bound_eqb (b c : option Q) : bool :=
  match b, c with
  | None, None => true
  | Some p, Some q => Qeq_bool p q
  | _, _ => false
  end.

Definition VarDecl_eqb (d e : VarDecl) : bool :=
  Var_eqb (v_var d) (v_var e) && bound_eqb (v_lb d) (v_lb e)
  && bound_eqb (v_ub d) (v_ub e) && Domain_eqb (v_dom d) (v_dom e).

(** A constraint with everything moved to the left: the coefficients of
    [lhs - rhs] over the variables [xs], the relation, and the constant
    [rhs - lhs]. *)
Definition row (xs : list Var) (c : Constraint) : list Q * Rel * Q :=
  (map (fun x => coefficient (c_lhs c) x - coefficient (c_rhs c) x) xs,
   c_rel c,
   le_const (c_rhs c) - le_const (c_lhs c)).

Fixpoint Qs_eqb (p q : list Q) : bool :=
  match p, q with
  | [], [] => true
  | a :: p', b :: q' => Qeq_bool a b && Qs_eqb p' q'
  | _, _ => false
  end.

Definition row_eqb (r s : list Q * Rel * Q) : bool :=
  Qs_eqb (fst (fst r)) (fst (fst s)) && Rel_eqb (snd (fst r)) (snd (fst s))
  && Qeq_bool (snd r) (snd s).

Definition rows_included (rs ss : list (list Q * Rel * Q)) : bool :=
  forallb (fun r => existsb (row_eqb r) ss) rs.

Definition decls_included (ds es : list VarDecl) : bool :=
  forallb (fun d => existsb (VarDecl_eqb d) es) ds.

Definition same_variables (m n : Model) : bool :=
  decls_included (m_vars m) (m_vars n) && decls_included (m_vars n) (m_vars m).

Definition same_objective (m n : Model) : bool :=
  Sense_eqb (m_sense m) (m_sense n)
  && Qs_eqb (map (coefficient (m_objective m)) (map v_var (m_vars m)))
            (map (coefficient (m_objective n)) (map v_var (m_vars m)))
  && Qeq_bool (le_const (m_objective m)) (le_const (m_objective n)).

(** The two constraint lists describe the same set of rows. *)
Definition same_constraints (m n : Model) : bool :=
  let xs := map v_var (m_vars m) in
  rows_included (map (row xs) (m_constraints m)) (map (row xs) (m_constraints n))
  && rows_included (map (row xs) (m_constraints n)) (map (row xs) (m_constraints m)).

Definition same_program (m n : Model) : bool :=
  same_variables m n && same_objective m n && same_constraints m n.

(** [rhs_is_constant c]: no decision variable on the right of the comparison. *)
Definition rhs_is_constant (c : Constraint) : bool :=
  match le_terms (c_rhs c) with
  | [] => true
  | _ :: _ => false
  end.

(** [lhs_has_variables c]: a linear expression over decision variables on the left. *)
Definition lhs_has_variables (c : Constraint) : bool :=
  match le_terms (c_lhs c) with
  | [] => false
  | _ :: _ => true
  end.

(** ** What a solver returns and what a cell prints *)

(** The status vocabulary the cells test or print: OR-tools' status code,
    pulp's [LpStatus], Pyomo's [termination_condition], linprog's message. *)
Inductive Status := Optimal | Feasible | Infeasible | Unbounded | Undefined.

(** Pyomo's [results.solver.status]. *)
Inductive SolverStatus := st_ok | st_warning | st_error | st_aborted.

Definition Status_eqb (s t : Status) : bool :=
  match s, t with
  | Optimal, Optimal | Feasible, Feasible | Infeasible, Infeasible
  | Unbounded, Unbounded | Undefined, Undefined => true
  | _, _ => false
  end.

Definition SolverStatus_eqb (s t : SolverStatus) : bool :=
  match s, t with
  | st_ok, st_ok | st_warning, st_warning | st_error, st_error
  | st_aborted, st_aborted => true
  | _, _ => false
  end.

Record SolveResult := {
  r_status : Status;
  r_solver_status : SolverStatus;
  r_objective : Q;
  r_value : Var -> Q
}.

(** A printed line is the sequence of its pieces: the literal text of the
    format string and the interpolated quantities. *)
Inductive Item :=
| Lit (s : string)
| ItStatus (s : Status)
| ItSolverStatus (s : SolverStatus)
| ItObjective (v : Q)
| ItValue (x : Var) (v : Q)
| ItMetric (name : string).

Definition Line := list Item.

Definition is_value (i : Item) : bool :=
  match i with ItValue _ _ => true | _ => false end.
Definition is_objective (i : Item) : bool :=
  match i with ItObjective _ => true | _ => false end.
Definition is_literal (i : Item) : bool :=
  match i with Lit _ => true | _ => false end.

(** Some line shows a per-variable value / the objective value / the
    returned status. *)
Definition prints_values (out : list Line) : bool := existsb (existsb is_value) out.
Definition prints_objective (out : list Line) : bool := existsb (existsb is_objective) out.


(** [np.around]: to the nearest integer, halves to the even one. *)
Definition around (q : Q) : Q :=
  let f := Qfloor q in
  match (q - inject_Z f) ?= (1 # 2) with
  | Lt => inject_Z f
  | Gt => inject_Z (f + 1)
  | Datatypes.Eq => inject_Z (if Z.even f then f else f + 1)
  end.

(** *** The printing code of the cells *)

(** [print(f"x{i} = {...}")] for [i in range(1,5)] *)
Definition value_lines_x1_x4 (r : SolveResult) : list Line :=
  map (fun i => [Lit "x{i} = "; ItValue (Xi i) (r_value r (Xi i))]) (range2 1 5).

(** [print(f"x[{i}][{j}] = {...}")] for [i in range(dim_i)], [j in range(dim_j)] *)
Definition value_lines_grid (dim_i dim_j : nat) (r : SolveResult) : list Line :=
  for2 (range dim_i) (range dim_j)
       (fun i j => [Lit "x[{i}][{j}] = "; ItValue (Xij i j) (r_value r (Xij i j))]).

(** [print(f"Field {f}, Rice {r}: {...} hectares")] for [f in fields], [r in rice_types] *)
Definition value_lines_rice (r : SolveResult) : list Line :=
  for2 fields rice_types
       (fun f rt => [Lit "Field {f}, Rice {r}: "; ItValue (Xfr f rt) (r_value r (Xfr f rt));
                     Lit " hectares"]).

(** Rice allocation with OR-tools, scenarios a and b. *)
Definition report_rice_ortools (r : SolveResult) : list Line :=
  if Status_eqb (r_status r) Optimal then
    [Lit "Status:"; Lit "Optimal"] :: value_lines_rice r
  else
    [[Lit "The problem does not have an optimal solution."]].

(** Rice allocation with Pyomo and CPLEX, scenarios a and b. *)
Definition report_rice_cplex (r : SolveResult) : list Line :=
  if SolverStatus_eqb (r_solver_status r) st_ok && Status_eqb (r_status r) Optimal then
    [Lit "Solution status:"; ItSolverStatus (r_solver_status r)] :: value_lines_rice r
  else if Status_eqb (r_status r) Infeasible then
    [[Lit "No feasible solution found."]]
  else
    [[Lit "Solver Status: "; ItSolverStatus (r_solver_status r)]].

(** The pulp cells over [x1 .. x4]: Problems 2, 3 and 4. *)
Definition report_pulp_x1_x4 (value_label : string) (r : SolveResult) : list Line :=
  [[Lit "Status: "; ItStatus (r_status r)];
   [Lit value_label; ItObjective (r_objective r)];
   [Lit "Optimal solution: "]]
  ++ value_lines_x1_x4 r.

(** The pulp cells over a grid [x[i][j]]: Problems 6a, 6b, 8a and 8b. *)
Definition report_pulp_grid (dim_i dim_j : nat) (r : SolveResult) : list Line :=
  [[Lit "Status: "; ItStatus (r_status r)];
   [Lit "Optimal value: "; ItObjective (r_objective r)];
   [Lit "Optimal solution: "]]
  ++ value_lines_grid dim_i dim_j r.

(** pulp, Problem 5: the four values on one line. *)
Definition report_pulp_problem5 (r : SolveResult) : list Line :=
  [[Lit "Status: "; ItStatus (r_status r)];
   [Lit "Optimal value: "; ItObjective (r_objective r)];
   [Lit "Optimal solution: xA = "; ItValue (Xi 0) (r_value r (Xi 0));
    Lit ", xB = "; ItValue (Xi 1) (r_value r (Xi 1));
    Lit ", xC = "; ItValue (Xi 2) (r_value r (Xi 2));
    Lit ", xD = "; ItValue (Xi 3) (r_value r (Xi 3))]].

(** The Pyomo cells over [x1 .. x4]: Problems 1a, 1b and 2. *)
Definition report_pyomo_x1_x4 (r : SolveResult) : list Line :=
  [[Lit "Optimal value: "; ItObjective (r_objective r)];
   [Lit "Optimal solution: "]]
  ++ value_lines_x1_x4 r.

(** Pyomo with couenne, Problem 6a. *)
Definition report_pyomo_grid (dim_i dim_j : nat) (r : SolveResult) : list Line :=
  [[Lit "Status: "; ItSolverStatus (r_solver_status r)];
   [Lit "Optimal value: "; ItObjective (r_objective r)];
   [Lit "Optimal solution: "]]
  ++ value_lines_grid dim_i dim_j r.

(** OR-tools, Problems 1a and 1b. *)
Definition report_ortools_problem1 (r : SolveResult) : list Line :=
  [[Lit "Optimal Value: "; ItObjective (r_objective r)];
   [Lit "Solution: "; ItStatus (r_status r)];
   [Lit "x1 = "; ItValue x1 (r_value r x1)];
   [Lit "x2 = "; ItValue x2 (r_value r x2)];
   [Lit "x3 = "; ItValue x3 (r_value r x3)];
   [Lit "x4 = "; ItValue x4 (r_value r x4)]].

(** The status test shared by the OR-tools cells of Problems 2 and 3; the
    branch ends in [pass] and the cell goes on. *)
Definition not_optimal_messages (r : SolveResult) : list Line :=
  if negb (Status_eqb (r_status r) Optimal) then
    [Lit "The problem does not have an optimal solution!"]
    :: (if Status_eqb (r_status r) Feasible then
          [[Lit "A potentially suboptimal solution was found"]]
        else
          [[Lit "The solver could not solve the problem."]])
  else [].

Definition solution_and_usage (r : SolveResult) : list Line :=
  [[Lit "Solution:"];
   [Lit "Optimal value: "; ItObjective (r_objective r)];
   [Lit "Optimal solution:"]]
  ++ value_lines_x1_x4 r
  ++ [[Lit "Advanced usage:"];
      [Lit "Problem solved in "; ItMetric "wall_time"; Lit " milliseconds"];
      [Lit "Problem solved in "; ItMetric "iterations"; Lit " iterations"]].

Definition report_ortools_problem2 (r : SolveResult) : list Line :=
  [Lit "Status: "; ItStatus (r_status r)]
  :: not_optimal_messages r ++ solution_and_usage r.

Definition report_ortools_problem3 (r : SolveResult) : list Line :=
  not_optimal_messages r ++ solution_and_usage r.

(** OR-tools, Problem 5: [for variable in variables: print(variable.name() + ':', ...)] *)
Definition report_ortools_problem5 (r : SolveResult) : list Line :=
  [Lit "Optimal objective value:"; ItObjective (r_objective r)]
  :: map (fun x => [Lit "{name}:"; ItValue x (r_value r x)]) (map Xi (range 4)).

(** SciPy, Problem 7: the message, [-results.fun], and the rounded vector
    on one line. *)
Definition report_problem7 (r : SolveResult) : list Line :=
  [[Lit "Status: "; ItStatus (r_status r)];
   [Lit "Optimal value: "; ItObjective (- r_objective r)];
   [Lit "Optimal solution: FI = "; ItValue (Xi 0) (around (r_value r (Xi 0)));
    Lit ", FII = "; ItValue (Xi 1) (around (r_value r (Xi 1)));
    Lit ", FIII = "; ItValue (Xi 2) (around (r_value r (Xi 2)));
    Lit ", MI = "; ItValue (Xi 3) (around (r_value r (Xi 3)));
    Lit ", MII = "; ItValue (Xi 4) (around (r_value r (Xi 4)));
    Lit ", MIII = "; ItValue (Xi 5) (around (r_value r (Xi 5)))]].

(** ** The notebook kernel

    The objects the cells share through the kernel's name space: the
    OR-tools solver (which owns its variables, objective and constraints),
    the Pyomo model, the pulp problem and the Pyomo solver object. *)
Inductive Obj :=
| PyNone
| MPSolver (backend : string) (m : Model)
| ConcreteModel (m : Model)
| LpProblem (m : Model)
| ShellSolver (name : string) (executable : option string)
| UnknownSolver (name : string).

Definition Kernel := string -> option Obj.

Definition empty_kernel : Kernel := fun _ => None.

Definition bind_name (n : string) (o : Obj) (k : Kernel) : Kernel :=
  fun n' => if String.eqb n' n then Some o else k n'.

(** What lies outside the notebook. *)
Inductive Tool :=
| Executable (path : string)      (* the file a Pyomo solver is pointed at *)
| OnPath (name : string)          (* a solver looked up by name *)
| Backend (name : string)         (* a back end linked into OR-tools *)
| PulpDefault                     (* the solver [prob.solve()] picks *)
| SciPy.

Record Env := {
  available : Tool -> bool;
  oracle : string -> Model -> SolveResult
}.

Inductive Exc :=
| NameError (name : string)
| AttributeError (name : string)
| RuntimeError          (* Pyomo: "Attempting to use an unavailable solver." *)
| ApplicationError      (* Pyomo: no executable found at solve time *)
| PulpSolverError.

Inductive Event :=
| Solved (solver : string) (m : Model)
| Printed (l : Line).

Record Run (A : Type) := mkRun {
  trace : list Event;
  result : Exc + (A * Kernel)
}.
Arguments mkRun {A} trace result.
Arguments trace {A} r.
Arguments result {A} r.

(** A piece of cell code: it reads the world and the kernel, leaves a
    trace, and ends in an exception or in a value and a new kernel. *)
Definition M (A : Type) : Type := Env -> Kernel -> Run A.

Definition ret {A : Type} (x : A) : M A :=
  fun _ k => mkRun [] (inr (x, k)).

Definition bind {A B : Type} (c : M A) (f : A -> M B) : M B :=
  fun env k =>
    let r := c env k in
    match result r with
    | inl e => mkRun (trace r) (inl e)
    | inr (x, k') =>
        let r' := f x env k' in
        mkRun (trace r ++ trace r') (result r')
    end.

Definition raise {A : Type} (e : Exc) : M A :=
  fun _ _ => mkRun [] (inl e).

Declare Scope cell_scope.
Delimit Scope cell_scope with cell.
Notation "x <- c1 ;; c2" := (bind c1 (fun x => c2))
  (at level 61, c1 at next level, right associativity) : cell_scope.
Notation "c1 ;; c2" := (bind c1 (fun _ => c2))
  (at level 61, right associativity) : cell_scope.
Local Open Scope cell_scope.

Definition print (l : Line) : M unit :=
  fun _ k => mkRun [Printed l] (inr (tt, k)).

Fixpoint print_all (ls : list Line) : M unit :=
  match ls with
  | [] => ret tt
  | l :: ls' => print l ;; print_all ls'
  end.

Definition assign (n : string) (o : Obj) : M unit :=
  fun _ k => mkRun [] (inr (tt, bind_name n o k)).

Definition lookup (n : string) : M Obj :=
  fun _ k =>
    match k n with
    | Some o => mkRun [] (inr (o, k))
    | None => mkRun [] (inl (NameError n))
    end.

Definition is_available (t : Tool) : M bool :=
  fun env k => mkRun [] (inr (available env t, k)).

(** The solver runs on [m]. *)
Definition call_solver (solver : string) (m : Model) : M SolveResult :=
  fun env k => mkRun [Solved solver m] (inr (oracle env solver m, k)).

(** *** OR-tools *)

(** [solver = pywraplp.Solver.CreateSolver(backend)]: [None] when the back
    end is not linked in. *)
Definition CreateSolver (backend : string) : M unit :=
  linked <- is_available (Backend backend) ;;
  assign "solver" (if linked then MPSolver backend (new_model Minimize) else PyNone).

(** [if not solver: print(message); pass] *)
Definition if_not_solver_print (message : string) : M unit :=
  o <- lookup "solver" ;;
  match o with
  | PyNone => print [Lit message]
  | _ => ret tt
  end.

(** A method call on the object named [solver] that changes the model it owns. *)
Definition on_solver (f : Model -> Model) : M unit :=
  o <- lookup "solver" ;;
  match o with
  | MPSolver b m => assign "solver" (MPSolver b (f m))
  | _ => raise (AttributeError "solver")
  end.

(** [status = solver.Solve()] *)
Definition Solve : M SolveResult :=
  o <- lookup "solver" ;;
  match o with
  | MPSolver b m => call_solver b m
  | _ => raise (AttributeError "Solve")
  end.

(** *** Pyomo *)

Definition on_model (f : Model -> Model) : M unit :=
  o <- lookup "model" ;;
  match o with
  | ConcreteModel m => assign "model" (ConcreteModel (f m))
  | _ => raise (AttributeError "model")
  end.

(** [solver = SolverFactory(name, executable=path)]: when the file does not
    exist or is not executable the factory logs a warning and returns an
    [UnknownSolver] (the behaviour recorded in the rice notebook's output).
    With [validate=False] and no path nothing is checked here. *)
Definition SolverFactory (name : string) (executable : option string) : M unit :=
  match executable with
  | Some path =>
      found <- is_available (Executable path) ;;
      assign "solver" (if found then ShellSolver name executable else UnknownSolver name)
  | None => assign "solver" (ShellSolver name None)
  end.

(** [results = solver.solve(model)]: an [UnknownSolver] raises
    [RuntimeError]; a shell solver whose executable cannot be found raises
    [ApplicationError]. *)
Definition pyomo_solve : M SolveResult :=
  s <- lookup "solver" ;;
  o <- lookup "model" ;;
  match s, o with
  | UnknownSolver _, _ => raise RuntimeError
  | ShellSolver name exe, ConcreteModel m =>
      found <- is_available (match exe with Some p => Executable p | None => OnPath name end) ;;
      if found then call_solver name m else raise ApplicationError
  | _, _ => raise (AttributeError "solve")
  end.

(** *** pulp and SciPy *)

(** [status = prob.solve()] *)
Definition pulp_solve : M SolveResult :=
  o <- lookup "prob" ;;
  match o with
  | LpProblem m =>
      found <- is_available PulpDefault ;;
      if found then call_solver "pulp" m else raise PulpSolverError
  | _ => raise (AttributeError "solve")
  end.

(** The shape of every pulp cell: create the problem, fill it, solve, print. *)
Definition pulp_cell (m : Model) (report : SolveResult -> list Line) : M unit :=
  assign "prob" (LpProblem m) ;;
  r <- pulp_solve ;;
  print_all (report r).

(** The shape of the Pyomo cells of the eight-problem notebook. *)
Definition pyomo_cell (m : Model) (name : string) (executable : option string)
    (report : SolveResult -> list Line) : M unit :=
  assign "model" (ConcreteModel m) ;;
  SolverFactory name executable ;;
  r <- pyomo_solve ;;
  print_all (report r).

(** The shape of the OR-tools cells of the eight-problem notebook; [check]
    is the message of the [if not solver] test, when the cell has one. *)
Definition ortools_cell (backend : string) (check : option string)
    (build : Model -> Model) (report : SolveResult -> list Line) : M unit :=
  CreateSolver backend ;;
  match check with Some msg => if_not_solver_print msg | None => ret tt end ;;
  on_solver build ;;
  r <- Solve ;;
  print_all (report r).

(** [results = linprog(...)] and the prints. *)
Definition scipy_cell (m : Model) (report : SolveResult -> list Line) : M unit :=
  r <- call_solver "linprog" m ;;
  print_all (report r).

(** ** The cells *)

(** A cell that hands a model to a solver, with its printing code. *)
Record ProblemCell := {
  pc_name : string;
  pc_code : M unit;
  pc_report : SolveResult -> list Line
}.

Fixpoint run_cells (cs : list (M unit)) : M unit :=
  match cs with
  | [] => ret tt
  | c :: cs' => c ;; run_cells cs'
  end.

Definition printed (t : list Event) : list Line :=
  flat_map (fun e => match e with Printed l => [l] | Solved _ _ => [] end) t.

Definition solved (t : list Event) : list Model :=
  flat_map (fun e => match e with Solved _ m => [m] | Printed _ => [] end) t.

(** What a cell prints, and the models it hands to a solver, when run in
    the world [env] on the kernel [k]. *)
Definition output (c : M unit) (env : Env) (k : Kernel) : list Line :=
  printed (trace (c env k)).
Definition solves (c : M unit) (env : Env) (k : Kernel) : list Model :=
  solved (trace (c env k)).

Definition raises {A : Type} (r : Run A) : bool :=
  match result r with inl _ => true | inr _ => false end.

Definition kernel_after {A : Type} (r : Run A) (k : Kernel) : Kernel :=
  match result r with inl _ => k | inr (_, k') => k' end.

(** *** Rice-allocation notebook, in document order *)

Module RiceCells.

Definition create_solver : M unit := CreateSolver "SCIP".
Definition declare_x : M unit := on_solver RiceNotebook.declare_x.
Definition objective_and_constraints : M unit :=
  on_solver RiceNotebook.add_objective_and_constraints.

Definition solve_a : M unit :=
  r <- Solve ;;
  print_all (report_rice_ortools r).

Definition scenario_b : M unit :=
  on_solver RiceNotebook.forbid_ir8_on_field_i ;;
  r <- Solve ;;
  print_all (report_rice_ortools r).

Definition concrete_model : M unit :=
  assign "model" (ConcreteModel RiceNotebook.concrete_model).
Definition declare_model_x : M unit := on_model RiceNotebook.declare_model_x.
Definition set_objective_and_constraints : M unit :=
  on_model RiceNotebook.set_objective_and_constraints.

Definition cplex_path : string :=
  "C:/Program Files/IBM/ILOG/CPLEX_Studio_Community2211/cplex/bin/x64_win64/cplex.exe".

Definition cplex_a : M unit :=
  SolverFactory "cplex" (Some cplex_path) ;;
  r <- pyomo_solve ;;
  print_all (report_rice_cplex r).

Definition cplex_b : M unit :=
  on_model RiceNotebook.set_no_ir8_field_i ;;
  SolverFactory "cplex" (Some cplex_path) ;;
  r <- pyomo_solve ;;
  print_all (report_rice_cplex r).

Definition pulp_8a : M unit :=
  pulp_cell LP_Problem_8a (report_pulp_grid (List.length rice_type) (List.length field_type)).
Definition pulp_8b : M unit :=
  pulp_cell LP_Problem_8b (report_pulp_grid (List.length rice_type) (List.length field_type)).

Definition notebook : list (M unit) :=
  [create_solver; declare_x; objective_and_constraints; solve_a; scenario_b;
   concrete_model; declare_model_x; set_objective_and_constraints; cplex_a; cplex_b;
   pulp_8a; pulp_8b].

Definition ortools_a_cell : ProblemCell :=
  {| pc_name := "rice/ortools-a"; pc_code := solve_a; pc_report := report_rice_ortools |}.
Definition ortools_b_cell : ProblemCell :=
  {| pc_name := "rice/ortools-b"; pc_code := scenario_b; pc_report := report_rice_ortools |}.
Definition cplex_a_cell : ProblemCell :=
  {| pc_name := "rice/cplex-a"; pc_code := cplex_a; pc_report := report_rice_cplex |}.
Definition cplex_b_cell : ProblemCell :=
  {| pc_name := "rice/cplex-b"; pc_code := cplex_b; pc_report := report_rice_cplex |}.
Definition pulp_8a_cell : ProblemCell :=
  {| pc_name := "rice/pulp-8a"; pc_code := pulp_8a;
     pc_report := report_pulp_grid (List.length rice_type) (List.length field_type) |}.
Definition pulp_8b_cell : ProblemCell :=
  {| pc_name := "rice/pulp-8b"; pc_code := pulp_8b;
     pc_report := report_pulp_grid (List.length rice_type) (List.length field_type) |}.

Definition ortools_cells : list ProblemCell := [ortools_a_cell; ortools_b_cell].
Definition pulp_cells : list ProblemCell := [pulp_8a_cell; pulp_8b_cell].

End RiceCells.

(** *** Eight-problem notebook, first document *)

Module ProblemCells.

Definition p1a_pyomo : ProblemCell :=
  {| pc_name := "problems/1a-pyomo-glpk";
     pc_code := pyomo_cell Problems.problem1a_pyomo "glpk" None report_pyomo_x1_x4;
     pc_report := report_pyomo_x1_x4 |}.
Definition p1b_pyomo : ProblemCell :=
  {| pc_name := "problems/1b-pyomo-cbc";
     pc_code := pyomo_cell Problems.problem1b_pyomo "cbc" (Some "D:/PROJECTS/Data analytics/Solvers/bin/cbc.exe"%string)
                           report_pyomo_x1_x4;
     pc_report := report_pyomo_x1_x4 |}.
Definition p1a_ortools : ProblemCell :=
  {| pc_name := "problems/1a-ortools";
     pc_code := ortools_cell "GLOP" (Some "Could not create solver GLOP"%string)
                             Problems.build_problem1a_ortools report_ortools_problem1;
     pc_report := report_ortools_problem1 |}.
Definition p1b_ortools : ProblemCell :=
  {| pc_name := "problems/1b-ortools";
     pc_code := ortools_cell "GLOP" (Some "Could not create solver GLOP"%string)
                             Problems.build_problem1b_ortools report_ortools_problem1;
     pc_report := report_ortools_problem1 |}.
Definition p2_pulp : ProblemCell :=
  {| pc_name := "problems/2-pulp";
     pc_code := pulp_cell Problems.LP_Problem_2 (report_pulp_x1_x4 "Optimal value: ");
     pc_report := report_pulp_x1_x4 "Optimal value: " |}.
Definition p2_pyomo : ProblemCell :=
  {| pc_name := "problems/2-pyomo-gurobi";
     pc_code := pyomo_cell Problems.problem2_pyomo "gurobi"
                           (Some "D:/PROJECTS/Data analytics/Solvers/bin/gurobi/bin/gurobi.bat"%string) report_pyomo_x1_x4;
     pc_report := report_pyomo_x1_x4 |}.
Definition p2_ortools : ProblemCell :=
  {| pc_name := "problems/2-ortools";
     pc_code := ortools_cell "SCIP" (Some "SCIP solver unavailable."%string)
                             Problems.build_problem2_ortools report_ortools_problem2;
     pc_report := report_ortools_problem2 |}.
Definition p3_pulp : ProblemCell :=
  {| pc_name := "problems/3-pulp";
     pc_code := pulp_cell Problems.LP_Problem_3 (report_pulp_x1_x4 "Optimal value (USD): ");
     pc_report := report_pulp_x1_x4 "Optimal value (USD): " |}.
Definition p3_ortools : ProblemCell :=
  {| pc_name := "problems/3-ortools";
     pc_code := ortools_cell "SCIP" (Some "SCIP solver unavailable."%string)
                             Problems.build_problem3_ortools report_ortools_problem3;
     pc_report := report_ortools_problem3 |}.
Definition p4_pulp : ProblemCell :=
  {| pc_name := "problems/4-pulp";
     pc_code := pulp_cell Problems.LP_Problem_4 (report_pulp_x1_x4 "Optimal value: ");
     pc_report := report_pulp_x1_x4 "Optimal value: " |}.
(** The cell after Problem 4 only creates a solver. *)
Definition p4_ortools_stub : M unit := CreateSolver "SCIP".
Definition p5_ortools : ProblemCell :=
  {| pc_name := "problems/5-ortools";
     pc_code := ortools_cell "GLOP" None Problems.build_problem5_ortools report_ortools_problem5;
     pc_report := report_ortools_problem5 |}.
Definition p6a_pulp : ProblemCell :=
  {| pc_name := "problems/6a-pulp";
     pc_code := pulp_cell Problems.LP_Problem_6a
                  (report_pulp_grid (List.length factory) (List.length warehouse6a));
     pc_report := report_pulp_grid (List.length factory) (List.length warehouse6a) |}.
Definition p6a_pyomo : ProblemCell :=
  {| pc_name := "problems/6a-pyomo-couenne";
     pc_code := pyomo_cell Problems.problem6a_pyomo "couenne"
                  (Some "D:/PROJECTS/Data analytics/Solvers/bin/couenne.exe"%string)
                  (report_pyomo_grid (List.length factory) (List.length warehouse6a));
     pc_report := report_pyomo_grid (List.length factory) (List.length warehouse6a) |}.
Definition p6b_pulp : ProblemCell :=
  {| pc_name := "problems/6b-pulp";
     pc_code := pulp_cell Problems.LP_Problem_6b
                  (report_pulp_grid (List.length factory) (List.length warehouse6b));
     pc_report := report_pulp_grid (List.length factory) (List.length warehouse6b) |}.
Definition p7_scipy : ProblemCell :=
  {| pc_name := "problems/7-scipy";
     pc_code := scipy_cell Problems.problem7 report_problem7;
     pc_report := report_problem7 |}.
Definition p8a_pulp : ProblemCell :=
  {| pc_name := "problems/8a-pulp";
     pc_code := RiceCells.pulp_8a;
     pc_report := report_pulp_grid (List.length rice_type) (List.length field_type) |}.
Definition p8b_pulp : ProblemCell :=
  {| pc_name := "problems/8b-pulp";
     pc_code := RiceCells.pulp_8b;
     pc_report := report_pulp_grid (List.length rice_type) (List.length field_type) |}.

Definition pulp_cells : list ProblemCell :=
  [p2_pulp; p3_pulp; p4_pulp; p6a_pulp; p6b_pulp; p8a_pulp; p8b_pulp].
Definition pyomo_cells : list ProblemCell := [p1a_pyomo; p1b_pyomo; p2_pyomo; p6a_pyomo].
Definition ortools_cells : list ProblemCell :=
  [p1a_ortools; p1b_ortools; p2_ortools; p3_ortools; p5_ortools].

Definition notebook : list (M unit) :=
  [pc_code p1a_pyomo; pc_code p1b_pyomo; pc_code p1a_ortools; pc_code p1b_ortools;
   pc_code p2_pulp; pc_code p2_pyomo; pc_code p2_ortools;
   pc_code p3_pulp; pc_code p3_ortools;
   pc_code p4_pulp; p4_ortools_stub;
   pc_code p5_ortools;
   pc_code p6a_pulp; pc_code p6a_pyomo; pc_code p6b_pulp;
   pc_code p7_scipy;
   pc_code p8a_pulp; pc_code p8b_pulp].

End ProblemCells.

(** *** Eight-problem notebook, second document *)

Module OriginalCells.

Definition p1a_pyomo : ProblemCell :=
  {| pc_name := "original/1a-pyomo-glpk";
     pc_code := pyomo_cell Problems.problem1a_pyomo "glpk" None report_pyomo_x1_x4;
     pc_report := report_pyomo_x1_x4 |}.
Definition p1b_pyomo : ProblemCell :=
  {| pc_name := "original/1b-pyomo-cbc";
     pc_code := pyomo_cell Problems.problem1b_pyomo "cbc" (Some "/bin/cbc.exe"%string)
                           report_pyomo_x1_x4;
     pc_report := report_pyomo_x1_x4 |}.
Definition p2_pulp : ProblemCell :=
  {| pc_name := "original/2-pulp";
     pc_code := pulp_cell Problems.LP_Problem_2 (report_pulp_x1_x4 "Optimal value: ");
     pc_report := report_pulp_x1_x4 "Optimal value: " |}.
Definition p2_pyomo : ProblemCell :=
  {| pc_name := "original/2-pyomo-gurobi";
     pc_code := pyomo_cell Problems.problem2_pyomo "gurobi"
                           (Some "/bin/gurobi/bin/gurobi.bat"%string) report_pyomo_x1_x4;
     pc_report := report_pyomo_x1_x4 |}.
Definition p3_pulp : ProblemCell :=
  {| pc_name := "original/3-pulp";
     pc_code := pulp_cell ProblemsOriginal.LP_Problem_3
                          (report_pulp_x1_x4 "Optimal value (USD): ");
     pc_report := report_pulp_x1_x4 "Optimal value (USD): " |}.
Definition p4_pulp : ProblemCell :=
  {| pc_name := "original/4-pulp";
     pc_code := pulp_cell Problems.LP_Problem_4 (report_pulp_x1_x4 "Optimal value: ");
     pc_report := report_pulp_x1_x4 "Optimal value: " |}.
Definition p5_pulp : ProblemCell :=
  {| pc_name := "original/5-pulp";
     pc_code := pulp_cell ProblemsOriginal.LP_Problem_5 report_pulp_problem5;
     pc_report := report_pulp_problem5 |}.
Definition p6a_pulp : ProblemCell :=
  {| pc_name := "original/6a-pulp";
     pc_code := pulp_cell Problems.LP_Problem_6a
                  (report_pulp_grid (List.length factory) (List.length warehouse6a));
     pc_report := report_pulp_grid (List.length factory) (List.length warehouse6a) |}.
Definition p6b_pulp : ProblemCell :=
  {| pc_name := "original/6b-pulp";
     pc_code := pulp_cell Problems.LP_Problem_6b
                  (report_pulp_grid (List.length factory) (List.length warehouse6b));
     pc_report := report_pulp_grid (List.length factory) (List.length warehouse6b) |}.
Definition p7_scipy : ProblemCell :=
  {| pc_name := "original/7-scipy";
     pc_code := scipy_cell Problems.problem7 report_problem7;
     pc_report := report_problem7 |}.
Definition p8a_pulp : ProblemCell :=
  {| pc_name := "original/8a-pulp";
     pc_code := RiceCells.pulp_8a;
     pc_report := report_pulp_grid (List.length rice_type) (List.length field_type) |}.
Definition p8b_pulp : ProblemCell :=
  {| pc_name := "original/8b-pulp";
     pc_code := RiceCells.pulp_8b;
     pc_report := report_pulp_grid (List.length rice_type) (List.length field_type) |}.

Definition pulp_cells : list ProblemCell :=
  [p2_pulp; p3_pulp; p4_pulp; p5_pulp; p6a_pulp; p6b_pulp; p8a_pulp; p8b_pulp].
Definition pyomo_cells : list ProblemCell := [p1a_pyomo; p1b_pyomo; p2_pyomo].

Definition notebook : list (M unit) :=
  [pc_code p1a_pyomo; pc_code p1b_pyomo; pc_code p2_pulp; pc_code p2_pyomo;
   pc_code p3_pulp; pc_code p4_pulp; pc_code p5_pulp;
   pc_code p6a_pulp; pc_code p6b_pulp; pc_code p7_scipy;
   pc_code p8a_pulp; pc_code p8b_pulp].

End OriginalCells.






(** A world in which every solver is there and answers [r] to every call. *)
Definition env_answering (r : SolveResult) : Env :=
  {| available := fun _ => true; oracle := fun _ _ => r |}.

Definition answer (s : Status) (ss : SolverStatus) (obj : Q) (a : Var -> Q) : SolveResult :=
  {| r_status := s; r_solver_status := ss; r_objective := obj; r_value := a |}.


(** *** Further recorded outputs *)

(** [LP_Problem_3] in the first document and the OR-tools cell after it. *)
Definition printed_problem3_pulp (x : Var) : Q :=
  match x with
  | Xi 1 => 16 | Xi 2 => 5 | Xi 3 => 7 | Xi 4 => 22
  | _ => 0
  end.

Definition printed_problem3_ortools (x : Var) : Q :=
  match x with
  | Xi 1 => 5 | Xi 2 => 5 | Xi 3 => 24 | Xi 4 => 16
  | _ => 0
  end.

(** [LP_Problem_4] in the first document: status [Infeasible], then the
    values the solver left behind. *)
Definition printed_problem4 (x : Var) : Q :=
  match x with
  | Xi 1 => 4.3636364 | Xi 2 => 27.636364 | Xi 3 => 20.0 | Xi 4 => 0.0
  | _ => 0
  end.

Definition recorded_problem4 : SolveResult :=
  answer Infeasible st_ok 1381.818192 printed_problem4.

(** Problems 1a and 1b. *)
Definition printed_problem1a (x : Var) : Q :=
  match x with
  | Xi 1 => 1200 | _ => 0
  end.

(** The point the recorded values of Problem 4 approximate. *)
Definition relaxed_problem4 (x : Var) : R :=
  match x with
  | Xi 1 => (48 / 11)%R | Xi 2 => (304 / 11)%R | Xi 3 => 20%R | Xi 4 => 0%R
  | _ => 0%R
  end.

(** The declared lower bound is the literal [0]. *)
Definition lower_bound_is_zero (d : VarDecl) : bool :=
  match v_lb d with
  | Some (Qmake 0 1) => true
  | _ => false
  end.





(** Each Pyomo cell with the executable its solver is configured with. *)
Definition pyomo_configurations : list (ProblemCell * Tool) :=
  [(RiceCells.cplex_a_cell, Executable RiceCells.cplex_path);
   (RiceCells.cplex_b_cell, Executable RiceCells.cplex_path);
   (ProblemCells.p1a_pyomo, OnPath "glpk");
   (ProblemCells.p1b_pyomo, Executable "D:/PROJECTS/Data analytics/Solvers/bin/cbc.exe");
   (ProblemCells.p2_pyomo,
    Executable "D:/PROJECTS/Data analytics/Solvers/bin/gurobi/bin/gurobi.bat");
   (ProblemCells.p6a_pyomo,
    Executable "D:/PROJECTS/Data analytics/Solvers/bin/couenne.exe");
   (OriginalCells.p1a_pyomo, OnPath "glpk");
   (OriginalCells.p1b_pyomo, Executable "/bin/cbc.exe");
   (OriginalCells.p2_pyomo, Executable "/bin/gurobi/bin/gurobi.bat")].

(** The recorded result of Problem 1a. *)
Definition recorded_problem1a : SolveResult := answer Optimal st_ok 960 printed_problem1a.


(** The kernel after the three Pyomo model cells of the rice-allocation notebook. *)
Definition kernel_with_rice_model (env : Env) : Kernel :=
  kernel_after
    (run_cells [RiceCells.concrete_model; RiceCells.declare_model_x;
                RiceCells.set_objective_and_constraints] env empty_kernel)
    empty_kernel.

(** A world without any solver. *)
Definition env_without_solvers : Env :=
  {| available := fun _ => false; oracle := fun _ _ => recorded_problem1a |}.

(** Problem 2, all three cells. *)
Definition printed_problem2 (x : Var) : Q :=
  match x with
  | Xi 1 => 100 | Xi 2 => 100 | Xi 3 => 150 | Xi 4 => 150
  | _ => 0
  end.

(** Problem 7. *)
Definition printed_problem7 (x : Var) : Q :=
  match x with
  | Xi 0 => 1 | Xi 1 => 1 | Xi 5 => 3
  | _ => 0
  end.

(** ** Further definitions for the properties of the models and cells *)

(** The optimal value of the relaxation: integrality dropped. *)
Definition relaxation_optimal_value (m : Model) (v : Q) : Prop :=
  (exists a, feasibleQ m a /\ objective_at m a == v) /\
  (forall a, feasibleQ m a -> no_worse (m_sense m) v (objective_at m a)).

(** [sum(l)] *)
Definition Qsum (l : list Q) : Q := fold_right Qplus 0 l.

(** The first constraint stored under the name [n]. *)
Fixpoint find_named (n : string) (cs : list Constraint) : option Constraint :=
  match cs with
  | [] => None
  | c :: cs' => if String.eqb (c_name c) n then Some c else find_named n cs'
  end.

(** Recorded outputs of Problem 6: pulp 6a, Pyomo/couenne 6a, pulp 6b. *)
Definition printed_problem6a_pulp (x : Var) : Q :=
  match x with
  | Xij 0 1 => 5
  | Xij 1 0 => 10 | Xij 1 4 => 5
  | Xij 2 2 => 10 | Xij 2 4 => 10
  | Xij 3 1 => 5 | Xij 3 3 => 20 | Xij 3 4 => 5
  | _ => 0
  end.

Definition printed_problem6a_pyomo (x : Var) : Q :=
  match x with
  | Xij 0 1 => 3 | Xij 0 4 => 2
  | Xij 1 0 => 6 | Xij 1 4 => 9
  | Xij 2 0 => 2 | Xij 2 1 => 3 | Xij 2 2 => 10 | Xij 2 3 => 5
  | Xij 3 0 => 2 | Xij 3 1 => 4 | Xij 3 3 => 15 | Xij 3 4 => 9
  | _ => 0
  end.

Definition printed_problem6b (x : Var) : Q :=
  match x with
  | Xij 0 1 => 5
  | Xij 1 0 => 10 | Xij 1 4 => 5
  | Xij 2 2 => 15 | Xij 2 4 => 5
  | Xij 3 1 => 5 | Xij 3 3 => 15 | Xij 3 4 => 10
  | _ => 0
  end.

(** Recorded outputs of Problem 5: pulp (second document) and OR-tools/GLOP. *)
Definition printed_problem5_pulp (x : Var) : Q :=
  match x with
  | Xi 0 => 70 | Xi 3 => 60
  | _ => 0
  end.

Definition printed_problem5_ortools (x : Var) : Q :=
  match x with
  | Xi 0 => 67.56756756756755 | Xi 3 => 60.81081081081081
  | _ => 0
  end.

(** The vertex the GLOP output approximates. *)
Definition relaxed_problem5 (x : Var) : Q :=
  match x with
  | Xi 0 => 2500 # 37 | Xi 3 => 2250 # 37
  | _ => 0
  end.

(** The point the recorded outputs of Problem 1b approximate. *)
Definition exact_problem1b (x : Var) : Q :=
  match x with
  | Xi 1 => 1000 | Xi 3 => 1000 # 3
  | _ => 0
  end.

(** The rational point behind the recorded values of Problem 4. *)
Definition relaxed_problem4_Q (x : Var) : Q :=
  match x with
  | Xi 1 => 48 # 11 | Xi 2 => 304 # 11 | Xi 3 => 20 | Xi 4 => 0
  | _ => 0
  end.

(** A feasible assignment of [LP_Problem_8b] with IR8 on field I. *)
Definition ir8_on_field_i (x : Var) : Q :=
  match x with
  | Xij 0 0 => 25 | Xij 0 2 => 5
  | Xij 1 1 => 20
  | Xij 2 1 => 5 | Xij 2 2 => 35
  | _ => 0
  end.

(** The six rows of the rice-allocation problem, as OR-tools holds them. *)
Definition rice_rows : list Constraint := m_constraints RiceNotebook.ortools_a.

(** The variables a linear expression mentions. *)
Definition variables_of (e : LinExpr) : list Var := map snd (le_terms e).

(** [x] is one of the declared variables of [m]. *)
Definition declared (m : Model) (x : Var) : bool :=
  existsb (Var_eqb x) (map v_var (m_vars m)).

Fixpoint distinct (xs : list Var) : bool :=
  match xs with
  | [] => true
  | x :: xs' => negb (existsb (Var_eqb x) xs') && distinct xs'
  end.

(** Every variable is declared once, and the objective and the constraints
    mention declared variables only. *)
Definition well_formed (m : Model) : bool :=
  distinct (map v_var (m_vars m))
  && forallb (declared m) (variables_of (m_objective m))
  && forallb (fun c => forallb (declared m) (variables_of (c_lhs c))
                       && forallb (declared m) (variables_of (c_rhs c)))
             (m_constraints m).


(** * Properties *)

Ltac lp_unfold :=
  cbv [mip_feasible feasibleQ feasibleR feasible feasible_in_reals feasible_in_integers
       optimal_value objective_at evalQ evalR no_worse] in *;
  cbn in *;
  cbv [in_bounds integral_var holds v_lb v_ub v_var v_dom c_rel c_lhs c_rhs
       IntVar NumVar LpVariable NonNegativeReals NonNegativeIntegers infinity] in *;
  cbn in *.

Ltac split_all :=
  repeat match goal with
         | H : _ /\ _ |- _ => destruct H
         | H : True |- _ => clear H
         end.

(** Replaces every integer-constrained value by the injection of an integer,
    then moves the whole context to [Z]. *)
Ltac integer_var H :=
  match type of H with
  | is_integer ?q =>
      let z := fresh "z" in
      unfold is_integer in H;
      set (z := Qfloor q) in H; clearbody z;
      repeat match goal with
             | H' : context [q] |- _ =>
                 tryif constr_eq H' H then fail else rewrite <- H in H'
             end;
      try rewrite <- H;
      clear H
  end.

Ltac to_Z :=
  repeat match goal with
         | H : is_integer _ |- _ => integer_var H
         end;
  unfold Qle, Qeq, Qplus, Qmult, inject_Z in *; cbn [Qnum Qden] in *.

(** ** Running cell code *)

Lemma print_all_run (ls : list Line) (env : Env) (k : Kernel) :
  print_all ls env k = mkRun (map Printed ls) (inr (tt, k)).
Proof.
  induction ls as [|l ls IH]; [reflexivity|].
  cbn [print_all]. unfold bind. cbn. rewrite IH. reflexivity.
Qed.





Lemma pyomo_cell_trace (m : Model) (name : string) (exe : option string)
    (report : SolveResult -> list Line) (env : Env) (k : Kernel) :
  trace (pyomo_cell m name exe report env k) =
  if available env (match exe with Some p => Executable p | None => OnPath name end) then
    Solved name m :: map Printed (report (oracle env name m))
  else [].
Proof.
  unfold pyomo_cell, SolverFactory, pyomo_solve, bind, assign, lookup, is_available,
    call_solver, raise.
  destruct exe as [path|]; cbn.
  - destruct (available env (Executable path)) eqn:E; cbn; [|reflexivity].
    rewrite E. cbn. rewrite print_all_run. reflexivity.
  - destruct (available env (OnPath name)); cbn; [|reflexivity].
    rewrite print_all_run. reflexivity.
Qed.

Lemma pyomo_cell_raises (m : Model) (name : string) (exe : option string)
    (report : SolveResult -> list Line) (env : Env) (k : Kernel) :
  available env (match exe with Some p => Executable p | None => OnPath name end) = false ->
  raises (pyomo_cell m name exe report env k) = true.
Proof.
  intros E.
  unfold raises, pyomo_cell, SolverFactory, pyomo_solve, bind, assign, lookup, is_available,
    call_solver, raise.
  destruct exe as [path|]; cbn; rewrite E; reflexivity.
Qed.






Lemma rice_cplex_a_trace (env : Env) (k : Kernel) :
  trace (RiceCells.cplex_a env k) =
  match k "model"%string with
  | Some (ConcreteModel m) =>
      if available env (Executable RiceCells.cplex_path) then
        Solved "cplex" m :: map Printed (report_rice_cplex (oracle env "cplex" m))
      else []
  | _ => []
  end.
Proof.
  unfold RiceCells.cplex_a, SolverFactory, pyomo_solve, bind, lookup, assign, is_available,
    call_solver, raise.
  cbn. destruct (available env (Executable RiceCells.cplex_path)) eqn:E; cbn;
    destruct (k "model"%string) as [[]|]; cbn; try rewrite E; cbn;
    try rewrite print_all_run; reflexivity.
Qed.

Lemma rice_cplex_b_trace (env : Env) (k : Kernel) :
  trace (RiceCells.cplex_b env k) =
  match k "model"%string with
  | Some (ConcreteModel m) =>
      if available env (Executable RiceCells.cplex_path) then
        Solved "cplex" (RiceNotebook.set_no_ir8_field_i m)
        :: map Printed (report_rice_cplex
                          (oracle env "cplex" (RiceNotebook.set_no_ir8_field_i m)))
      else []
  | _ => []
  end.
Proof.
  unfold RiceCells.cplex_b, on_model, SolverFactory, pyomo_solve, bind, lookup, assign,
    is_available, call_solver, raise.
  cbn. destruct (k "model"%string) as [[]|]; cbn; try reflexivity.
  destruct (available env (Executable RiceCells.cplex_path)) eqn:E; cbn; try rewrite E; cbn;
    try rewrite print_all_run; reflexivity.
Qed.

Lemma rice_cplex_raises (env : Env) (k : Kernel) :
  available env (Executable RiceCells.cplex_path) = false ->
  raises (RiceCells.cplex_a env k) = true /\ raises (RiceCells.cplex_b env k) = true.
Proof.
  intros E. split.
  - unfold raises, RiceCells.cplex_a, SolverFactory, pyomo_solve, bind, lookup, assign,
      is_available, call_solver, raise.
    cbn. rewrite E. cbn. destruct (k "model"%string) as [[]|]; reflexivity.
  - unfold raises, RiceCells.cplex_b, on_model, SolverFactory, pyomo_solve, bind, lookup,
      assign, is_available, call_solver, raise.
    cbn. destruct (k "model"%string) as [[]|]; cbn; try reflexivity.
    rewrite E. reflexivity.
Qed.

Ltac unfold_cells :=
  cbv [ProblemCells.p1a_pyomo ProblemCells.p1b_pyomo ProblemCells.p1a_ortools
       ProblemCells.p1b_ortools ProblemCells.p2_pulp ProblemCells.p2_pyomo
       ProblemCells.p2_ortools ProblemCells.p3_pulp ProblemCells.p3_ortools
       ProblemCells.p4_pulp ProblemCells.p5_ortools ProblemCells.p6a_pulp
       ProblemCells.p6a_pyomo ProblemCells.p6b_pulp ProblemCells.p7_scipy
       ProblemCells.p8a_pulp ProblemCells.p8b_pulp
       OriginalCells.p1a_pyomo OriginalCells.p1b_pyomo OriginalCells.p2_pulp
       OriginalCells.p2_pyomo OriginalCells.p3_pulp OriginalCells.p4_pulp
       OriginalCells.p5_pulp OriginalCells.p6a_pulp OriginalCells.p6b_pulp
       OriginalCells.p7_scipy OriginalCells.p8a_pulp OriginalCells.p8b_pulp
       RiceCells.ortools_a_cell RiceCells.ortools_b_cell RiceCells.cplex_a_cell
       RiceCells.cplex_b_cell RiceCells.pulp_8a_cell RiceCells.pulp_8b_cell
       RiceCells.pulp_8a RiceCells.pulp_8b
       pc_code pc_report pc_name] in *.




(** ** The boolean tests decide feasibility *)

Lemma all_hold_forallb {X : Type} (P : X -> Prop) (Pb : X -> bool) (l : list X) :
  (forall x, Pb x = true <-> P x) ->
  (forallb Pb l = true <-> all_hold P l).
Proof.
  intros HP. induction l as [|x l IH]; cbn.
  - tauto.
  - rewrite andb_true_iff, HP, IH. tauto.
Qed.

Lemma holdsb_spec (a : Var -> Q) (c : Constraint) :
  holdsb a c = true <-> holdsQ a c.
Proof.
  unfold holdsb, holdsQ, holds, evalQ.
  destruct (c_rel c); [apply Qle_bool_iff | apply Qle_bool_iff | apply Qeq_bool_iff].
Qed.

Lemma in_boundsb_spec (a : Var -> Q) (d : VarDecl) :
  in_boundsb a d = true <-> in_boundsQ a d.
Proof.
  unfold in_boundsb, in_boundsQ, in_bounds. rewrite andb_true_iff.
  destruct (v_lb d), (v_ub d); rewrite ?Qle_bool_iff; intuition congruence.
Qed.

Lemma integral_varb_spec (a : Var -> Q) (d : VarDecl) :
  integral_varb a d = true <-> integral_var a d.
Proof.
  unfold integral_varb, integral_var, is_integer.
  destruct (v_dom d); [tauto | apply Qeq_bool_iff].
Qed.

Lemma mip_feasibleb_spec (m : Model) (a : Var -> Q) :
  mip_feasibleb m a = true <-> mip_feasible m a.
Proof.
  unfold mip_feasibleb, mip_feasible, feasibleQ, feasible.
  rewrite !andb_true_iff.
  rewrite (all_hold_forallb _ _ _ (in_boundsb_spec a)).
  rewrite (all_hold_forallb _ _ _ (holdsb_spec a)).
  rewrite (all_hold_forallb _ _ _ (integral_varb_spec a)).
  reflexivity.
Qed.

Example recorded_assignments_checked :
  mip_feasibleb RiceNotebook.ortools_a printed_rice_ortools = true /\
  mip_feasibleb LP_Problem_8a printed_rice_pulp = true /\
  mip_feasibleb LP_Problem_8a printed_problem8 = true /\
  mip_feasibleb Problems.LP_Problem_3 printed_problem3_pulp = true /\
  mip_feasibleb Problems.problem3_ortools printed_problem3_ortools = true /\
  mip_feasibleb Problems.LP_Problem_3 printed_problem3_ortools = false /\
  mip_feasibleb Problems.LP_Problem_4 printed_problem4 = false.
Proof. repeat split; vm_compute; reflexivity. Qed.

(** ** Replaying recorded runs *)

Example around_examples :
  around 2.5 = 2 /\ around 3.5 = 4 /\ around 0.9999 = 1 /\ around (-0.5) = 0 /\ around 3 = 3.
Proof. repeat split; vm_compute; reflexivity. Qed.

(** The pulp cell of Problem 4, when the solver answers as recorded. *)
Example problem4_recorded_output :
  output (pc_code ProblemCells.p4_pulp) (env_answering recorded_problem4) empty_kernel
  = [[Lit "Status: "; ItStatus Infeasible];
     [Lit "Optimal value: "; ItObjective 1381.818192];
     [Lit "Optimal solution: "];
     [Lit "x{i} = "; ItValue (Xi 1) 4.3636364];
     [Lit "x{i} = "; ItValue (Xi 2) 27.636364];
     [Lit "x{i} = "; ItValue (Xi 3) 20.0];
     [Lit "x{i} = "; ItValue (Xi 4) 0.0]].
Proof. vm_compute. reflexivity. Qed.

(** The CPLEX cell of scenario a on a machine without CPLEX, after the
    model cells: [RuntimeError], nothing printed. *)
Example cplex_a_recorded_run :
  RiceCells.cplex_a env_without_solvers (kernel_with_rice_model env_without_solvers)
  = mkRun [] (inl RuntimeError).
Proof. vm_compute. reflexivity. Qed.

(** The SciPy cell prints the rounded vector and the negated objective. *)
Example problem7_recorded_output :
  output (pc_code ProblemCells.p7_scipy)
         (env_answering (answer Optimal st_ok (-51) printed_problem7)) empty_kernel
  = [[Lit "Status: "; ItStatus Optimal];
     [Lit "Optimal value: "; ItObjective 51];
     [Lit "Optimal solution: FI = "; ItValue (Xi 0) 1;
      Lit ", FII = "; ItValue (Xi 1) 1;
      Lit ", FIII = "; ItValue (Xi 2) 0;
      Lit ", MI = "; ItValue (Xi 3) 0;
      Lit ", MII = "; ItValue (Xi 4) 0;
      Lit ", MIII = "; ItValue (Xi 5) 3]].
Proof. vm_compute. reflexivity. Qed.

(** ** Optimal values *)

(** Closes a goal about a concrete assignment by evaluation. *)
Ltac concrete :=
  lp_unfold;
  repeat split;
  try reflexivity;
  try (unfold Qle; cbn; lia).

Lemma optimal_value_intro (m : Model) (v : Q) (a : Var -> Q) :
  mip_feasible m a /\ objective_at m a == v ->
  (forall b, mip_feasible m b -> no_worse (m_sense m) v (objective_at m b)) ->
  optimal_value m v.
Proof.
  intros Ha Hb. split; [exists a; exact Ha | exact Hb].
Qed.

(** The rice-allocation constraints, spelled out. *)
Lemma rice_feasible_iff (a : Var -> Q) :
  feasibleQ RiceNotebook.ortools_a a <->
  (forall f r, 0 <= a (Xfr f r)) /\
  (forall r, a (Xfr F_I r) + a (Xfr F_II r) + a (Xfr F_III r)
             == match r with IR8 => 30 | CBC => 20 | IR132 => 40 end) /\
  (forall f, a (Xfr f IR8) + a (Xfr f CBC) + a (Xfr f IR132)
             == match f with F_I => 25 | F_II => 25 | F_III => 40 end).
Proof.
  lp_unfold. split.
  - intros H. split_all. repeat split.
    + intros [] []; assumption.
    + intros []; Lqa.lra.
    + intros []; Lqa.lra.
  - intros (Hb & Hr & Hf).
    pose proof (Hr IR8). pose proof (Hr CBC). pose proof (Hr IR132).
    pose proof (Hf F_I). pose proof (Hf F_II). pose proof (Hf F_III).
    cbn in *. repeat split; try apply Hb; Lqa.lra.
Qed.

Lemma rice_ortools_a_bound (a : Var -> Q) :
  mip_feasible RiceNotebook.ortools_a a -> objective_at RiceNotebook.ortools_a a <= 585.
Proof. intros H. lp_unfold. split_all. Lqa.lra. Qed.

Lemma rice_pyomo_a_bound (a : Var -> Q) :
  mip_feasible RiceNotebook.pyomo_a a -> objective_at RiceNotebook.pyomo_a a <= 585.
Proof. intros H. lp_unfold. split_all. Lqa.lra. Qed.

Lemma LP_Problem_8a_bound (a : Var -> Q) :
  mip_feasible LP_Problem_8a a -> objective_at LP_Problem_8a a <= 585.
Proof. intros H. lp_unfold. split_all. Lqa.lra. Qed.

Lemma rice_ortools_b_bound (a : Var -> Q) :
  mip_feasible RiceNotebook.ortools_b a -> objective_at RiceNotebook.ortools_b a <= 585.
Proof. intros H. lp_unfold. split_all. Lqa.lra. Qed.

Lemma rice_pyomo_b_bound (a : Var -> Q) :
  mip_feasible RiceNotebook.pyomo_b a -> objective_at RiceNotebook.pyomo_b a <= 585.
Proof. intros H. lp_unfold. split_all. Lqa.lra. Qed.

Lemma LP_Problem_8b_bound (a : Var -> Q) :
  mip_feasible LP_Problem_8b a -> objective_at LP_Problem_8b a <= 585.
Proof. intros H. lp_unfold. split_all. Lqa.lra. Qed.

(** The recorded assignments are solutions of the models they were printed
    for, with total yield 585. *)
Lemma printed_rice_ortools_attains :
  (mip_feasible RiceNotebook.ortools_a printed_rice_ortools /\
   objective_at RiceNotebook.ortools_a printed_rice_ortools == 585) /\
  (mip_feasible RiceNotebook.ortools_b printed_rice_ortools /\
   objective_at RiceNotebook.ortools_b printed_rice_ortools == 585) /\
  (mip_feasible RiceNotebook.pyomo_a printed_rice_ortools /\
   objective_at RiceNotebook.pyomo_a printed_rice_ortools == 585) /\
  (mip_feasible RiceNotebook.pyomo_b printed_rice_ortools /\
   objective_at RiceNotebook.pyomo_b printed_rice_ortools == 585).
Proof. repeat split; concrete. Qed.

Lemma printed_rice_pulp_attains :
  (mip_feasible LP_Problem_8a printed_rice_pulp /\
   objective_at LP_Problem_8a printed_rice_pulp == 585) /\
  (mip_feasible LP_Problem_8b printed_rice_pulp /\
   objective_at LP_Problem_8b printed_rice_pulp == 585).
Proof. repeat split; concrete. Qed.

Lemma printed_problem8_attains :
  (mip_feasible LP_Problem_8a printed_problem8 /\
   objective_at LP_Problem_8a printed_problem8 == 585) /\
  (mip_feasible LP_Problem_8b printed_problem8 /\
   objective_at LP_Problem_8b printed_problem8 == 585).
Proof. repeat split; concrete. Qed.

(** C1.  For the rice-allocation problem the maximum total yield over the
    feasible assignments (non-negative integer hectares, the three per-rice
    and the three per-field totals as equalities) is 585, in each of the
    three formulations (OR-tools, Pyomo, pulp), and every assignment the
    notebooks print is feasible and yields 585. *)
Theorem rice_allocation_optimum :
  (optimal_value RiceNotebook.ortools_a 585 /\
   optimal_value RiceNotebook.pyomo_a 585 /\
   optimal_value LP_Problem_8a 585) /\
  (mip_feasible RiceNotebook.ortools_a printed_rice_ortools /\
   objective_at RiceNotebook.ortools_a printed_rice_ortools == 585) /\
  (mip_feasible LP_Problem_8a printed_rice_pulp /\
   objective_at LP_Problem_8a printed_rice_pulp == 585) /\
  (mip_feasible LP_Problem_8a printed_problem8 /\
   objective_at LP_Problem_8a printed_problem8 == 585).
Proof.
  destruct printed_rice_ortools_attains as (Ha & _ & Hp & _).
  destruct printed_rice_pulp_attains as (Hq & _).
  destruct printed_problem8_attains as (H8 & _).
  split; [split; [|split] | split; [|split]].
  - apply (optimal_value_intro _ _ printed_rice_ortools Ha). exact rice_ortools_a_bound.
  - apply (optimal_value_intro _ _ printed_rice_ortools Hp). exact rice_pyomo_a_bound.
  - apply (optimal_value_intro _ _ printed_problem8 H8). exact LP_Problem_8a_bound.
  - exact Ha.
  - exact Hq.
  - exact H8.
Qed.

Lemma rice_allocation_optimum_witness :
  objective_at LP_Problem_8a printed_rice_pulp <= 585.
Proof.
  apply (proj2 (proj2 (proj2 (proj1 rice_allocation_optimum))) printed_rice_pulp).
  concrete.
Defined.

(** C9.  Forbidding IR8 on field I, by the extra constraint
    [x[I,IR8] = 0] (OR-tools, Pyomo) or by a zero yield coefficient (pulp),
    leaves the maximum total yield at 585. *)
Theorem restriction_keeps_optimum :
  optimal_value RiceNotebook.ortools_b 585 /\
  optimal_value RiceNotebook.pyomo_b 585 /\
  optimal_value LP_Problem_8b 585.
Proof.
  destruct printed_rice_ortools_attains as (_ & Hb & _ & Hp).
  destruct printed_problem8_attains as (_ & H8).
  split; [|split].
  - apply (optimal_value_intro _ _ printed_rice_ortools Hb). exact rice_ortools_b_bound.
  - apply (optimal_value_intro _ _ printed_rice_ortools Hp). exact rice_pyomo_b_bound.
  - apply (optimal_value_intro _ _ printed_problem8 H8). exact LP_Problem_8b_bound.
Qed.

Lemma restriction_keeps_optimum_witness :
  objective_at RiceNotebook.ortools_b printed_rice_ortools <= 585.
Proof.
  apply (proj2 (proj1 restriction_keeps_optimum) printed_rice_ortools).
  concrete.
Defined.

(** ** Problem 4 *)

(** The constraint system of [LP_Problem_4], spelled out. *)
Lemma problem4_feasible_iff (a : Var -> Q) :
  feasibleQ Problems.LP_Problem_4 a <->
  (0 <= a x1 /\ 0 <= a x2 /\ 0 <= a x3 /\ 0 <= a x4) /\
  a x1 + a x2 == 32 /\
  a x3 + a x4 == 20 /\
  30 * a x1 + 28 * a x3 == 25 * a x2 + 20 * a x4.
Proof.
  lp_unfold. unfold x1, x2, x3, x4.
  split; intros H; split_all; repeat split; try assumption; Lqa.lra.
Qed.

Lemma problem4_no_integer_solution (a : Var -> Q) :
  ~ mip_feasible Problems.LP_Problem_4 a.
Proof.
  intros H. lp_unfold. unfold x1, x2, x3, x4 in *. split_all. to_Z. lia.
Qed.

Lemma problem4_relaxed_solution : feasibleR Problems.LP_Problem_4 relaxed_problem4.
Proof.
  lp_unfold. unfold Q2R. cbn. repeat split; Lra.lra.
Qed.

(** C10.  The constraint system of Problem 4 ([x1 + x2 = 32],
    [x3 + x4 = 20], [30*x1 + 28*x3 = 25*x2 + 20*x4], all variables
    non-negative) has no solution in integers and has one in the reals. *)
Theorem problem4_infeasible_in_integers_only :
  ~ feasible_in_integers Problems.LP_Problem_4 /\
  feasible_in_reals Problems.LP_Problem_4.
Proof.
  split.
  - intros [a Ha]. exact (problem4_no_integer_solution a Ha).
  - exists relaxed_problem4. exact problem4_relaxed_solution.
Qed.

(** ** The same problem through several libraries *)

Lemma LP_Problem_3_bound (a : Var -> Q) :
  mip_feasible Problems.LP_Problem_3 a -> objective_at Problems.LP_Problem_3 a <= 107000.
Proof.
  intros H. lp_unfold. unfold x1, x2, x3, x4 in *. split_all. to_Z. lia.
Qed.

Lemma problem3_ortools_bound (a : Var -> Q) :
  mip_feasible Problems.problem3_ortools a ->
  objective_at Problems.problem3_ortools a <= 120500.
Proof.
  intros H. lp_unfold. unfold x1, x2, x3, x4 in *. split_all. to_Z. lia.
Qed.

Lemma LP_Problem_3_optimum : optimal_value Problems.LP_Problem_3 107000.
Proof.
  apply (optimal_value_intro _ _ printed_problem3_pulp); [concrete|].
  exact LP_Problem_3_bound.
Qed.

Lemma problem3_ortools_optimum : optimal_value Problems.problem3_ortools 120500.
Proof.
  apply (optimal_value_intro _ _ printed_problem3_ortools); [concrete|].
  exact problem3_ortools_bound.
Qed.

(** Where the libraries do build the same program. *)
Lemma same_program_where_it_holds :
  same_program RiceNotebook.ortools_a RiceNotebook.pyomo_a = true /\
  same_program RiceNotebook.ortools_b RiceNotebook.pyomo_b = true /\
  same_program Problems.LP_Problem_2 Problems.problem2_pyomo = true /\
  same_program Problems.LP_Problem_6a Problems.problem6a_pyomo = true /\
  same_program ProblemsOriginal.LP_Problem_3 Problems.problem3_ortools = true.
Proof. repeat split; vm_compute; reflexivity. Qed.

(** Problem 1: the second row reads [0.5*x4] in the Pyomo cells and
    [0.4*x4] in the OR-tools cells.  Problem 2: the OR-tools cell adds the
    row [x1 + x2 + x3 + x4 == 500]. *)
Lemma problems_1_and_2_differ :
  same_constraints Problems.problem1a_pyomo Problems.problem1a_ortools = false /\
  same_constraints Problems.problem1b_pyomo Problems.problem1b_ortools = false /\
  same_constraints Problems.LP_Problem_2 Problems.problem2_ortools = false.
Proof. repeat split; vm_compute; reflexivity. Qed.

(** Problems 1a and 2: the programs differ, their optimal values do not. *)
Lemma problem1a_optimum :
  optimal_value Problems.problem1a_pyomo 960 /\
  optimal_value Problems.problem1a_ortools 960.
Proof.
  split; apply (optimal_value_intro _ _ printed_problem1a); try concrete;
    intros b H; lp_unfold; unfold x1, x2, x3, x4 in *; split_all; Lqa.lra.
Qed.

Lemma problem2_optimum :
  optimal_value Problems.LP_Problem_2 46.5 /\
  optimal_value Problems.problem2_pyomo 46.5 /\
  optimal_value Problems.problem2_ortools 46.5.
Proof.
  repeat split; try (exists printed_problem2; concrete);
    intros b H; lp_unfold; unfold x1, x2, x3, x4 in *; split_all; Lqa.lra.
Qed.

(** C7.  Problem 3 of the first document: the pulp cell and the OR-tools
    cell do not build the same program (the capacity row has [35 * x3] in
    one and [25 * x3] in the other), and their optimal objective values
    differ, 107000 against 120500. *)
Theorem problem3_programs_differ :
  same_constraints Problems.LP_Problem_3 Problems.problem3_ortools = false /\
  same_program Problems.LP_Problem_3 Problems.problem3_ortools = false /\
  optimal_value Problems.LP_Problem_3 107000 /\
  optimal_value Problems.problem3_ortools 120500 /\
  ~ 107000 == 120500.
Proof.
  split; [vm_compute; reflexivity|].
  split; [vm_compute; reflexivity|].
  split; [exact LP_Problem_3_optimum|].
  split; [exact problem3_ortools_optimum|].
  intros H. vm_compute in H. discriminate H.
Qed.

Lemma problem3_programs_differ_witness :
  objective_at Problems.LP_Problem_3 printed_problem3_pulp <= 107000.
Proof.
  apply (proj2 (proj1 (proj2 (proj2 problem3_programs_differ))) printed_problem3_pulp).
  concrete.
Defined.

(** ** Variable bounds and the form of the constraints *)

Ltac model_cases H :=
  cbv [all_models rice_notebook_models problems_models problems_original_models app In] in H;
  repeat match type of H with
         | _ \/ _ => destruct H as [<-|H]
         end;
  try contradiction.

Lemma lower_bound_is_zero_spec (d : VarDecl) :
  lower_bound_is_zero d = true -> v_lb d = Some 0.
Proof.
  unfold lower_bound_is_zero.
  destruct (v_lb d) as [[[|p|p] [q|q|]]|]; try discriminate. reflexivity.
Qed.

Lemma all_lower_bounds_zero :
  forallb (fun m => forallb lower_bound_is_zero (m_vars m)) all_models = true.
Proof. vm_compute. reflexivity. Qed.

(** C5.  Every decision variable declared in any notebook has lower bound
    0, so an assignment within the declared bounds gives no variable a
    negative value. *)
Theorem declared_variables_nonnegative (m : Model) (d : VarDecl) :
  In m all_models -> In d (m_vars m) ->
  v_lb d = Some 0 /\
  forall a : Var -> Q, in_boundsQ a d -> 0 <= a (v_var d).
Proof.
  intros Hm Hd.
  assert (Hz : v_lb d = Some 0).
  { apply lower_bound_is_zero_spec.
    pose proof all_lower_bounds_zero as H.
    rewrite forallb_forall in H. specialize (H m Hm).
    rewrite forallb_forall in H. exact (H d Hd). }
  split; [exact Hz|].
  intros a [Hl _]. rewrite Hz in Hl. exact Hl.
Qed.

Lemma declared_variables_nonnegative_witness :
  0 <= printed_problem4 (Xi 1).
Proof.
  refine (proj2 (declared_variables_nonnegative Problems.LP_Problem_4
                   (LpVariable 0 Integer (Xi 1)) _ _) printed_problem4 _).
  - cbv [all_models rice_notebook_models problems_models problems_original_models app In].
    do 15 right. left. reflexivity.
  - left. reflexivity.
  - split; [unfold Qle; cbn; lia | exact I].
Defined.

(** Problem 4's third constraint with everything moved to the left. *)
Lemma balance_constraint_normal_form (a : Var -> Q) :
  holdsQ a Problems.balance_constraint <->
  evalQ a (lin [30 *: x1; -25 *: x2; 28 *: x3; -20 *: x4]) == 0.
Proof.
  unfold holdsQ, holds, evalQ. cbn. split; intros H; Lqa.lra.
Qed.

(** The claim C4 as stated fails: [LP_Problem_4] holds a constraint with
    decision variables on both sides of the comparison. *)
Lemma constraint_form_counterexample :
  ~ (forall m c, In m all_models -> In c (m_constraints m) ->
                 lhs_has_variables c = true /\ rhs_is_constant c = true).
Proof.
  intros H.
  assert (Hm : In Problems.LP_Problem_4 all_models).
  { cbv [all_models rice_notebook_models problems_models problems_original_models app In].
    do 15 right. left. reflexivity. }
  assert (Hc : In Problems.balance_constraint (m_constraints Problems.LP_Problem_4)).
  { cbn. right. right. left. reflexivity. }
  destruct (H _ _ Hm Hc) as [_ Hr]. vm_compute in Hr. discriminate Hr.
Qed.

(** C4, amended.  Every constraint of every model compares (with [=], [<=]
    or [>=]) a linear expression over the decision variables with a numeric
    constant, except the third constraint of Problem 4, which has decision
    variables on both sides and is equivalent to
    [30*x1 - 25*x2 + 28*x3 - 20*x4 = 0]. *)
Theorem constraint_form (m : Model) (c : Constraint) :
  In m all_models -> In c (m_constraints m) ->
  lhs_has_variables c = true /\
  (rhs_is_constant c = true \/
   (c = Problems.balance_constraint /\
    forall a, holdsQ a c <->
              evalQ a (lin [30 *: x1; -25 *: x2; 28 *: x3; -20 *: x4]) == 0)).
Proof.
  intros Hm Hc. model_cases Hm; vm_compute in Hc;
    repeat match type of Hc with
           | _ \/ _ => destruct Hc as [<-|Hc]
           end;
    try contradiction;
    (split; [reflexivity|]);
    first [ left; reflexivity
          | right; split; [reflexivity | exact balance_constraint_normal_form] ].
Qed.

Lemma constraint_form_witness :
  lhs_has_variables Problems.balance_constraint = true /\
  (rhs_is_constant Problems.balance_constraint = true \/
   (Problems.balance_constraint = Problems.balance_constraint /\
    forall a, holdsQ a Problems.balance_constraint <->
              evalQ a (lin [30 *: x1; -25 *: x2; 28 *: x3; -20 *: x4]) == 0)).
Proof.
  apply (constraint_form Problems.LP_Problem_4 Problems.balance_constraint).
  - cbv [all_models rice_notebook_models problems_models problems_original_models app In].
    do 15 right. left. reflexivity.
  - cbn. right. right. left. reflexivity.
Defined.

(** ** What the cells print *)















(** ** Unavailable solvers *)

(** The run recorded in the rice-allocation notebook: with the model in
    the kernel and no executable at the configured path, the cell ends in
    [RuntimeError] before any of its prints. *)
Lemma cplex_a_runtime_error (env : Env) (k : Kernel) (m : Model) :
  k "model"%string = Some (ConcreteModel m) ->
  available env (Executable RiceCells.cplex_path) = false ->
  RiceCells.cplex_a env k
  = mkRun [] (inl RuntimeError).
Proof.
  intros Hm E.
  unfold RiceCells.cplex_a, SolverFactory, pyomo_solve, bind, lookup, assign, is_available,
    call_solver, raise.
  cbn. rewrite E. cbn. rewrite Hm. reflexivity.
Qed.

(** C6.  When the executable a Pyomo cell is configured with is not
    available, running the cell ends in an exception, nothing has been
    handed to a solver, and none of the cell's prints has run. *)
Theorem unavailable_solver_is_uncaught (pc : ProblemCell) (tool : Tool) (env : Env) (k : Kernel) :
  In (pc, tool) pyomo_configurations ->
  available env tool = false ->
  raises (pc_code pc env k) = true /\
  output (pc_code pc) env k = [] /\
  solves (pc_code pc) env k = [].
Proof.
  intros Hc E. unfold output, solves.
  cbv [pyomo_configurations In] in Hc.
  repeat match type of Hc with
         | _ \/ _ => destruct Hc as [Hc|Hc]
         end;
    try contradiction; inversion Hc; subst; clear Hc; unfold_cells.
  1: { rewrite rice_cplex_a_trace. destruct (rice_cplex_raises env k E) as [-> _].
       destruct (k "model"%string) as [[]|]; try rewrite E; auto. }
  1: { rewrite rice_cplex_b_trace. destruct (rice_cplex_raises env k E) as [_ ->].
       destruct (k "model"%string) as [[]|]; try rewrite E; auto. }
  all: rewrite pyomo_cell_trace, pyomo_cell_raises by exact E; rewrite E; auto.
Qed.

Lemma unavailable_solver_is_uncaught_witness :
  raises (RiceCells.cplex_a env_without_solvers (kernel_with_rice_model env_without_solvers))
  = true.
Proof.
  refine (proj1 (unavailable_solver_is_uncaught
                   RiceCells.cplex_a_cell
                   (Executable RiceCells.cplex_path)
                   env_without_solvers
                   (kernel_with_rice_model env_without_solvers) _ _)).
  - left. reflexivity.
  - reflexivity.
Defined.

(** ** Objects shared between cells *)


(** Run in document order, with every solver there, each notebook hands
    these models to its solvers. *)
Lemma notebooks_solve_all_models (r : SolveResult) :
  solves (run_cells RiceCells.notebook) (env_answering r) empty_kernel
  = rice_notebook_models /\
  solves (run_cells ProblemCells.notebook) (env_answering r) empty_kernel
  = problems_models /\
  solves (run_cells OriginalCells.notebook) (env_answering r) empty_kernel
  = problems_original_models.
Proof.
  destruct r as [st ss o v].
  destruct st, ss; repeat split; vm_compute; reflexivity.
Qed.




(** * Further properties of the models and cells *)

(** ** Optimal values of the remaining problems *)

Ltac relax_bound :=
  let b := fresh "b" in
  let H := fresh "H" in
  intros b H; lp_unfold; unfold x1, x2, x3, x4 in *; split_all; Lqa.lra.

Lemma relaxation_bounds_mip (m : Model) (v : Q) (a : Var -> Q) :
  mip_feasible m a ->
  objective_at m a == v ->
  (forall b, feasibleQ m b -> no_worse (m_sense m) v (objective_at m b)) ->
  optimal_value m v /\ relaxation_optimal_value m v.
Proof.
  intros Ha Hv Hb. split; split.
  - exists a. split; assumption.
  - intros b [Hf _]. apply Hb. exact Hf.
  - exists a. split; [exact (proj1 Ha) | exact Hv].
  - exact Hb.
Qed.

(** X1.  Problem 6a: the least total distance is 435, for the pulp model
    and for the Pyomo model, with or without integrality; the two recorded
    assignments differ and both attain it. *)
Theorem problem6a_optimum :
  (optimal_value Problems.LP_Problem_6a 435 /\
   relaxation_optimal_value Problems.LP_Problem_6a 435) /\
  (optimal_value Problems.problem6a_pyomo 435 /\
   relaxation_optimal_value Problems.problem6a_pyomo 435) /\
  (mip_feasible Problems.LP_Problem_6a printed_problem6a_pulp /\
   objective_at Problems.LP_Problem_6a printed_problem6a_pulp == 435) /\
  (mip_feasible Problems.problem6a_pyomo printed_problem6a_pyomo /\
   objective_at Problems.problem6a_pyomo printed_problem6a_pyomo == 435) /\
  ~ printed_problem6a_pulp (Xij 0 1) == printed_problem6a_pyomo (Xij 0 1).
Proof.
  assert (Hp : mip_feasible Problems.LP_Problem_6a printed_problem6a_pulp)
    by (apply mip_feasibleb_spec; vm_compute; reflexivity).
  assert (Hq : mip_feasible Problems.problem6a_pyomo printed_problem6a_pyomo)
    by (apply mip_feasibleb_spec; vm_compute; reflexivity).
  split; [|split; [|split; [|split]]].
  - apply (relaxation_bounds_mip _ _ printed_problem6a_pulp Hp); [vm_compute; reflexivity|relax_bound].
  - apply (relaxation_bounds_mip _ _ printed_problem6a_pyomo Hq); [vm_compute; reflexivity|relax_bound].
  - split; [exact Hp|vm_compute; reflexivity].
  - split; [exact Hq|vm_compute; reflexivity].
  - intros H. vm_compute in H. discriminate H.
Qed.

Lemma problem6a_optimum_witness :
  435 <= objective_at Problems.LP_Problem_6a printed_problem6a_pyomo.
Proof.
  apply (proj2 (proj1 (proj1 problem6a_optimum)) printed_problem6a_pyomo).
  apply mip_feasibleb_spec. vm_compute. reflexivity.
Defined.

(** X2.  Problem 6b (warehouses 3 and 4 take 15 tons each): the least total
    distance is 405, with or without integrality, and the recorded
    assignment attains it. *)
Theorem problem6b_optimum :
  optimal_value Problems.LP_Problem_6b 405 /\
  relaxation_optimal_value Problems.LP_Problem_6b 405 /\
  mip_feasible Problems.LP_Problem_6b printed_problem6b /\
  objective_at Problems.LP_Problem_6b printed_problem6b == 405.
Proof.
  assert (Hp : mip_feasible Problems.LP_Problem_6b printed_problem6b)
    by (apply mip_feasibleb_spec; vm_compute; reflexivity).
  destruct (relaxation_bounds_mip _ 405 printed_problem6b Hp) as [Ho Hr];
    [vm_compute; reflexivity|relax_bound|].
  split; [exact Ho|]. split; [exact Hr|]. split; [exact Hp|].
  vm_compute. reflexivity.
Qed.

Lemma problem6b_optimum_witness :
  405 <= objective_at Problems.LP_Problem_6b printed_problem6b.
Proof.
  apply (proj2 (proj1 problem6b_optimum) printed_problem6b).
  apply mip_feasibleb_spec. vm_compute. reflexivity.
Defined.

(** X3.  Problem 5: the pulp cell and the OR-tools cell state the same
    integer program, whose optimal value is 68500000 (the pulp output).
    The values recorded for the OR-tools cell, solved with GLOP, are not
    integers: they satisfy the bounds and rows only, and their objective
    lies above 68500000 and below the optimal value 2537500000/37 of the
    relaxation. *)
Theorem problem5_integer_and_relaxed :
  same_program ProblemsOriginal.LP_Problem_5 Problems.problem5_ortools = true /\
  optimal_value ProblemsOriginal.LP_Problem_5 68500000 /\
  optimal_value Problems.problem5_ortools 68500000 /\
  relaxation_optimal_value Problems.problem5_ortools (2537500000 # 37) /\
  feasibleQ Problems.problem5_ortools printed_problem5_ortools /\
  mip_feasibleb Problems.problem5_ortools printed_problem5_ortools = false /\
  68500000 < objective_at Problems.problem5_ortools printed_problem5_ortools /\
  objective_at Problems.problem5_ortools printed_problem5_ortools <= 2537500000 # 37.
Proof.
  assert (Hb : forall a, mip_feasible ProblemsOriginal.LP_Problem_5 a ->
                         objective_at ProblemsOriginal.LP_Problem_5 a <= 68500000).
  { intros a H. lp_unfold.
    unfold ProblemsOriginal.xA, ProblemsOriginal.xB, ProblemsOriginal.xC,
      ProblemsOriginal.xD in *.
    split_all. to_Z. lia. }
  assert (Hf : feasibleQ Problems.problem5_ortools printed_problem5_ortools)
    by (lp_unfold; repeat split; unfold Qle; cbn; lia).
  split; [vm_compute; reflexivity|].
  split; [|split; [|split; [|split; [|split; [|split]]]]].
  - apply (optimal_value_intro _ _ printed_problem5_pulp); [|exact Hb].
    split; [apply mip_feasibleb_spec|]; vm_compute; reflexivity.
  - apply (optimal_value_intro _ _ printed_problem5_pulp).
    + split; [apply mip_feasibleb_spec|]; vm_compute; reflexivity.
    + intros a H. lp_unfold. split_all. to_Z. lia.
  - split.
    + exists relaxed_problem5. split; [|vm_compute; reflexivity].
      lp_unfold; repeat split; unfold Qle; cbn; lia.
    + relax_bound.
  - exact Hf.
  - vm_compute. reflexivity.
  - vm_compute. reflexivity.
  - unfold Qle. vm_compute. discriminate.
Qed.

Lemma problem5_integer_and_relaxed_witness :
  objective_at ProblemsOriginal.LP_Problem_5 printed_problem5_pulp <= 68500000.
Proof.
  apply (proj2 (proj1 (proj2 problem5_integer_and_relaxed)) printed_problem5_pulp).
  apply mip_feasibleb_spec. vm_compute. reflexivity.
Defined.

(** X4.  Problem 2: with the row [x1 + x2 + x3 + x4 == 500] the OR-tools
    model has a single feasible point, (100, 100, 150, 150); the pulp and
    Pyomo models, which lack that row, have others; the optimal value is
    46.5 in all three. *)
Theorem problem2_single_point (a : Var -> Q) :
  feasibleQ Problems.problem2_ortools a ->
  (a x1 == 100 /\ a x2 == 100 /\ a x3 == 150 /\ a x4 == 150) /\
  objective_at Problems.problem2_ortools a == 46.5 /\
  feasibleQ Problems.LP_Problem_2 a /\
  feasibleQ Problems.problem2_pyomo a /\
  (exists b, feasibleQ Problems.LP_Problem_2 b /\ feasibleQ Problems.problem2_pyomo b /\
             ~ feasibleQ Problems.problem2_ortools b) /\
  optimal_value Problems.LP_Problem_2 46.5 /\
  optimal_value Problems.problem2_pyomo 46.5 /\
  optimal_value Problems.problem2_ortools 46.5.
Proof.
  intros H.
  split; [lp_unfold; unfold x1, x2, x3, x4 in *; split_all; repeat split; Lqa.lra|].
  split; [lp_unfold; unfold x1, x2, x3, x4 in *; split_all; Lqa.lra|].
  split; [lp_unfold; unfold x1, x2, x3, x4, resource in *; split_all; repeat split;
          first [exact I | Lqa.lra]|].
  split; [lp_unfold; unfold x1, x2, x3, x4, resource in *; split_all; repeat split;
          first [exact I | Lqa.lra]|].
  split; [|exact problem2_optimum].
  exists (fun x => match x with Xi 1 => 50 | Xi 2 => 100 | Xi 3 => 150 | _ => 0 end).
  split; [|split].
  - lp_unfold; repeat split; unfold Qle; cbn; lia.
  - lp_unfold; repeat split; unfold Qle; cbn; lia.
  - intros Hb. lp_unfold. split_all.
    match goal with E : _ == 500 |- _ => vm_compute in E; discriminate E end.
Qed.

Lemma problem2_single_point_witness : printed_problem2 x4 == 150.
Proof.
  refine (proj2 (proj2 (proj2 (proj1 (problem2_single_point printed_problem2 _))))).
  lp_unfold; repeat split; try reflexivity; unfold Qle; cbn; lia.
Defined.

(** X5.  Problem 1: the Pyomo and the OR-tools cells differ in the second
    row ([0.5*x4] against [0.4*x4]) and still have the same optimal values:
    960 for part a and 2900/3 for part b. *)
Theorem problem1_optimum :
  (optimal_value Problems.problem1a_pyomo 960 /\
   optimal_value Problems.problem1a_ortools 960) /\
  (optimal_value Problems.problem1b_pyomo (2900 # 3) /\
   optimal_value Problems.problem1b_ortools (2900 # 3)).
Proof.
  split; [exact problem1a_optimum|].
  split; apply (optimal_value_intro _ _ exact_problem1b);
    try (split; [apply mip_feasibleb_spec|]; vm_compute; reflexivity);
    intros b H; lp_unfold; unfold x1, x2, x3, x4 in *; split_all; Lqa.lra.
Qed.

Lemma problem1_optimum_witness :
  objective_at Problems.problem1b_ortools exact_problem1b <= 2900 # 3.
Proof.
  apply (proj2 (proj2 (proj2 problem1_optimum)) exact_problem1b).
  apply mip_feasibleb_spec. vm_compute. reflexivity.
Defined.

(** X6.  Problem 7, as the cell passes it to [linprog] (the rows as upper
    bounds): the least value of the negated objective is -51, so the cell
    prints 51, and the recorded assignment attains it. *)
Theorem problem7_optimum :
  optimal_value Problems.problem7 (-51) /\
  mip_feasible Problems.problem7 printed_problem7 /\
  objective_at Problems.problem7 printed_problem7 == -51 /\
  forall r, r_objective r == -51 ->
            exists v, In [Lit "Optimal value: "; ItObjective v] (report_problem7 r) /\ v == 51.
Proof.
  assert (Hp : mip_feasible Problems.problem7 printed_problem7)
    by (apply mip_feasibleb_spec; vm_compute; reflexivity).
  split; [|split; [exact Hp|split; [vm_compute; reflexivity|]]].
  - apply (optimal_value_intro _ _ printed_problem7).
    + split; [exact Hp|vm_compute; reflexivity].
    + relax_bound.
  - intros r Hr. exists (- r_objective r). split.
    + right. left. reflexivity.
    + rewrite Hr. reflexivity.
Qed.

Lemma problem7_optimum_witness :
  -51 <= objective_at Problems.problem7 printed_problem7.
Proof.
  apply (proj2 (proj1 problem7_optimum) printed_problem7).
  apply mip_feasibleb_spec. vm_compute. reflexivity.
Defined.

(** X7.  Problem 7: the rows are named [lhs_eq] and [rhs_eq] but are passed
    as [A_ub] and [b_ub]; read as equalities they have no non-negative
    solution (the two worker rows add up to 5, the three machine rows to
    6), so at every feasible point some row is slack. *)
Theorem problem7_rows_not_all_tight (a : Var -> Q) :
  feasibleQ Problems.problem7 a ->
  ~ all_hold (fun c => evalQ a (c_lhs c) == evalQ a (c_rhs c))
             (m_constraints Problems.problem7).
Proof.
  intros H Ht. lp_unfold. split_all. Lqa.lra.
Qed.

Lemma problem7_rows_not_all_tight_witness :
  ~ all_hold (fun c => evalQ printed_problem7 (c_lhs c) == evalQ printed_problem7 (c_rhs c))
             (m_constraints Problems.problem7).
Proof.
  apply (problem7_rows_not_all_tight printed_problem7).
  lp_unfold; repeat split; unfold Qle; cbn; lia.
Defined.

(** X8.  Problem 4 without integrality: the greatest objective value is
    15200/11, attained at (48/11, 304/11, 20, 0).  These are the numbers
    the cell printed under the status [Infeasible], up to rounding. *)
Theorem problem4_relaxation_optimum :
  relaxation_optimal_value Problems.LP_Problem_4 (15200 # 11) /\
  feasibleQ Problems.LP_Problem_4 relaxed_problem4_Q /\
  objective_at Problems.LP_Problem_4 relaxed_problem4_Q == 15200 # 11 /\
  (forall x, Qabs (printed_problem4 x - relaxed_problem4_Q x) <= 1 # 1000000) /\
  Qabs (r_objective recorded_problem4 - (15200 # 11)) <= 2 # 100000.
Proof.
  assert (Hf : feasibleQ Problems.LP_Problem_4 relaxed_problem4_Q)
    by (lp_unfold; repeat split; try reflexivity; unfold Qle; cbn; lia).
  split; [split|split; [exact Hf|split; [vm_compute; reflexivity|split]]].
  - exists relaxed_problem4_Q. split; [exact Hf|vm_compute; reflexivity].
  - relax_bound.
  - intros [[|[|[|[|[|i]]]]]|i j|f r]; vm_compute; discriminate.
  - vm_compute. discriminate.
Qed.

Lemma problem4_relaxation_optimum_witness :
  objective_at Problems.LP_Problem_4 relaxed_problem4_Q <= 15200 # 11.
Proof.
  apply (proj2 (proj1 problem4_relaxation_optimum) relaxed_problem4_Q).
  lp_unfold; repeat split; try reflexivity; unfold Qle; cbn; lia.
Defined.

(** X9.  Rice allocation: every assignment that reaches the optimum 585 of
    the unrestricted problem plants no IR8 on field I.  The pulp model with
    the zeroed yield coefficient keeps the feasible set of the unrestricted
    model (it has feasible assignments with IR8 on field I), and every
    assignment that reaches its optimum plants none. *)
Theorem optimal_plans_avoid_ir8_on_field_i :
  (forall a, feasibleQ RiceNotebook.ortools_a a ->
             objective_at RiceNotebook.ortools_a a == 585 -> a (Xfr F_I IR8) == 0) /\
  (forall a, feasibleQ LP_Problem_8a a ->
             objective_at LP_Problem_8a a == 585 -> a (Xij 0 0) == 0) /\
  (forall a, feasibleQ LP_Problem_8b a <-> feasibleQ LP_Problem_8a a) /\
  (mip_feasible LP_Problem_8b ir8_on_field_i /\ ir8_on_field_i (Xij 0 0) == 25) /\
  (forall a, feasibleQ LP_Problem_8b a ->
             objective_at LP_Problem_8b a == 585 -> a (Xij 0 0) == 0).
Proof.
  split; [|split; [|split; [|split]]].
  - intros a H Ho. lp_unfold. split_all. Lqa.lra.
  - intros a H Ho. lp_unfold. split_all. Lqa.lra.
  - intros a. reflexivity.
  - split; [apply mip_feasibleb_spec; vm_compute; reflexivity|reflexivity].
  - intros a H Ho. lp_unfold. split_all. Lqa.lra.
Qed.

Lemma optimal_plans_avoid_ir8_on_field_i_witness :
  printed_problem8 (Xij 0 0) == 0.
Proof.
  apply (proj1 (proj2 optimal_plans_avoid_ir8_on_field_i) printed_problem8).
  - lp_unfold; repeat split; try reflexivity; unfold Qle; cbn; lia.
  - vm_compute. reflexivity.
Defined.

(** ** The transportation-shaped cells *)

Lemma all_hold_In {X : Type} (P : X -> Prop) (l : list X) :
  all_hold P l <-> forall x, In x l -> P x.
Proof.
  induction l as [|y l IH]; cbn.
  - split; [intros _ x []|auto].
  - rewrite IH. split.
    + intros [Hy Hl] x [<-|Hx]; auto.
    + intros H. split; auto.
Qed.

Lemma all_hold_app {X : Type} (P : X -> Prop) (l l' : list X) :
  all_hold P (l ++ l') <-> all_hold P l /\ all_hold P l'.
Proof.
  induction l as [|y l IH]; cbn; [tauto|]. rewrite IH. tauto.
Qed.

Lemma m_constraints_add_constraints (cs : list Constraint) (m : Model) :
  m_constraints (add_constraints cs m) = m_constraints m ++ cs.
Proof.
  unfold add_constraints. revert m.
  induction cs as [|c cs IH]; intros m; cbn.
  - symmetry. apply app_nil_r.
  - rewrite IH. cbn. rewrite <- app_assoc. reflexivity.
Qed.

Lemma m_constraints_add_vars (ds : list VarDecl) (m : Model) :
  m_constraints (add_vars ds m) = m_constraints m.
Proof.
  unfold add_vars. revert m.
  induction ds as [|d ds IH]; intros m; cbn; [reflexivity|].
  rewrite IH. reflexivity.
Qed.

Lemma pulp_grid_constraints (sense : Sense) (rows cols : list Q) (coef : list (list Q)) :
  m_constraints (pulp_grid sense rows cols coef) =
  map (fun i => lin (map (fun j => 1 *: Xij i j) (range (List.length cols))) ==! idx rows i)
      (range (List.length rows))
  ++ map (fun j => lin (map (fun i => 1 *: Xij i j) (range (List.length rows))) ==! idx cols j)
         (range (List.length cols)).
Proof.
  unfold pulp_grid. rewrite !m_constraints_add_constraints. cbn [set_objective m_constraints].
  rewrite m_constraints_add_vars. reflexivity.
Qed.

Lemma Qsum_cons (q : Q) (l : list Q) : Qsum (q :: l) = q + Qsum l.
Proof. reflexivity. Qed.

Lemma Qsum_map_ext {X : Type} (f g : X -> Q) (l : list X) :
  (forall x, In x l -> f x == g x) -> Qsum (map f l) == Qsum (map g l).
Proof.
  induction l as [|x l IH]; intros H; cbn [map]; [reflexivity|].
  rewrite !Qsum_cons, (H x (or_introl Logic.eq_refl)), IH; [reflexivity|].
  intros y Hy. apply H. right. exact Hy.
Qed.

Lemma Qsum_map_plus {X : Type} (f g : X -> Q) (l : list X) :
  Qsum (map (fun x => f x + g x) l) == Qsum (map f l) + Qsum (map g l).
Proof.
  induction l as [|x l IH]; cbn [map]; [reflexivity|].
  rewrite !Qsum_cons, IH. Lqa.lra.
Qed.

Lemma Qsum_map_zero {X : Type} (l : list X) : Qsum (map (fun _ => 0) l) == 0.
Proof.
  induction l as [|x l IH]; cbn [map]; [reflexivity|].
  rewrite Qsum_cons, IH. Lqa.lra.
Qed.

(** Summing a table by rows or by columns gives the same total. *)
Lemma Qsum_exchange {X Y : Type} (f : X -> Y -> Q) (xs : list X) (ys : list Y) :
  Qsum (map (fun x => Qsum (map (fun y => f x y) ys)) xs)
  == Qsum (map (fun y => Qsum (map (fun x => f x y) xs)) ys).
Proof.
  induction xs as [|x xs IH]; cbn [map].
  - rewrite Qsum_map_zero. reflexivity.
  - rewrite Qsum_cons, IH.
    rewrite <- (Qsum_map_plus (fun y => f x y)).
    apply Qsum_map_ext. intros y _. rewrite Qsum_cons. reflexivity.
Qed.

Lemma Qsum_idx_range (l : list Q) :
  Qsum (map (idx l) (range (List.length l))) == Qsum l.
Proof.
  unfold range. induction l as [|q l IH]; [reflexivity|].
  cbn [List.length seq map]. rewrite <- seq_shift, map_map, !Qsum_cons.
  unfold idx at 1. cbn [nth].
  rewrite (Qsum_map_ext (fun i => idx (q :: l) (S i)) (idx l)); [|reflexivity].
  rewrite IH. reflexivity.
Qed.

Lemma eval_unit_terms {X : Type} (a : Var -> Q) (v : X -> Var) (l : list X) (start : Q) :
  eval_terms Q (fun q => q) Qplus Qmult a (map (fun x => 1 *: v x) l) start
  == start + Qsum (map (fun x => a (v x)) l).
Proof.
  unfold eval_terms. revert start.
  induction l as [|x l IH]; intros start; cbn [map fold_left].
  - unfold Qsum. cbn. Lqa.lra.
  - rewrite IH, Qsum_cons. cbn [fst snd]. Lqa.lra.
Qed.

(** X10.  The transportation-shaped pulp cells (Problems 6a, 6b, 8a, 8b)
    put one equality on every row and one on every column of the grid
    [x[i][j]]: whatever the tables are, such a model has a solution only if
    the row totals and the column totals add up to the same amount. *)
Theorem pulp_grid_balanced (sense : Sense) (rows cols : list Q) (coef : list (list Q))
    (a : Var -> Q) :
  feasibleQ (pulp_grid sense rows cols coef) a ->
  Qsum rows == Qsum cols.
Proof.
  intros [_ Hc]. rewrite pulp_grid_constraints in Hc.
  apply all_hold_app in Hc. destruct Hc as [Hr Hk].
  rewrite all_hold_In in Hr, Hk.
  assert (Hrow : forall i, In i (range (List.length rows)) ->
                 Qsum (map (fun j => a (Xij i j)) (range (List.length cols))) == idx rows i).
  { intros i Hi.
    specialize (Hr _ (in_map _ _ _ Hi)).
    unfold holds, eval in Hr. cbn [c_rel c_lhs c_rhs con lin cst le_terms le_const] in Hr.
    rewrite (eval_unit_terms a (fun j => Xij i j)) in Hr.
    unfold eval_terms in Hr. cbn [fold_left] in Hr. rewrite <- Hr. Lqa.lra. }
  assert (Hcol : forall j, In j (range (List.length cols)) ->
                 Qsum (map (fun i => a (Xij i j)) (range (List.length rows))) == idx cols j).
  { intros j Hj.
    specialize (Hk _ (in_map _ _ _ Hj)).
    unfold holds, eval in Hk. cbn [c_rel c_lhs c_rhs con lin cst le_terms le_const] in Hk.
    rewrite (eval_unit_terms a (fun i => Xij i j)) in Hk.
    unfold eval_terms in Hk. cbn [fold_left] in Hk. rewrite <- Hk. Lqa.lra. }
  rewrite <- (Qsum_idx_range rows), <- (Qsum_idx_range cols).
  rewrite <- (Qsum_map_ext _ _ _ Hrow), <- (Qsum_map_ext _ _ _ Hcol).
  apply Qsum_exchange.
Qed.

Lemma pulp_grid_balanced_witness : Qsum factory == Qsum warehouse6b.
Proof.
  apply (pulp_grid_balanced Minimize factory warehouse6b distance printed_problem6b).
  apply (proj1 (proj1 (mip_feasibleb_spec Problems.LP_Problem_6b printed_problem6b)
                  Logic.eq_refl)).
Defined.

(** ** Running a model-building cell again *)

Lemma find_named_app (n : string) (cs cs' : list Constraint) :
  find_named n (cs ++ cs') =
  match find_named n cs with
  | Some c => Some c
  | None => find_named n cs'
  end.
Proof.
  induction cs as [|c cs IH]; cbn; [reflexivity|].
  destruct (String.eqb (c_name c) n); [reflexivity|exact IH].
Qed.

Lemma replace_named_None (n : string) (c : Constraint) (cs : list Constraint) :
  replace_named n c cs = None -> find_named n cs = None.
Proof.
  induction cs as [|c0 cs IH]; cbn; [reflexivity|].
  destruct (String.eqb (c_name c0) n); [discriminate|].
  destruct (replace_named n c cs); [discriminate|]. intros _. apply IH. reflexivity.
Qed.

Lemma replace_named_find (n : string) (c : Constraint) (cs cs' : list Constraint) :
  c_name c = n -> replace_named n c cs = Some cs' -> find_named n cs' = Some c.
Proof.
  intros Hn. revert cs'.
  induction cs as [|c0 cs IH]; intros cs'; cbn; [discriminate|].
  destruct (String.eqb (c_name c0) n) eqn:E.
  - intros H. inversion H; subst. cbn. rewrite String.eqb_refl. reflexivity.
  - destruct (replace_named n c cs) as [cs0|]; [|discriminate].
    intros H. inversion H; subst. cbn. rewrite E. apply IH. reflexivity.
Qed.

Lemma replace_named_find_other (n n' : string) (c : Constraint) (cs cs' : list Constraint) :
  c_name c = n' -> String.eqb n' n = false ->
  replace_named n' c cs = Some cs' -> find_named n cs' = find_named n cs.
Proof.
  intros Hn Hne. revert cs'.
  induction cs as [|c0 cs IH]; intros cs'; cbn; [discriminate|].
  destruct (String.eqb (c_name c0) n') eqn:E.
  - intros H. inversion H; subst. cbn.
    apply String.eqb_eq in E. rewrite E, Hne. reflexivity.
  - destruct (replace_named n' c cs) as [cs0|]; [|discriminate].
    intros H. inversion H; subst. cbn.
    destruct (String.eqb (c_name c0) n); [reflexivity|]. apply IH. reflexivity.
Qed.

Lemma replace_named_same (n : string) (c : Constraint) (cs : list Constraint) :
  find_named n cs = Some c -> replace_named n c cs = Some cs.
Proof.
  induction cs as [|c0 cs IH]; cbn; [discriminate|].
  destruct (String.eqb (c_name c0) n).
  - intros H. inversion H; subst. reflexivity.
  - intros H. rewrite (IH H). reflexivity.
Qed.

(** After [model.n = Constraint(c)] the name [n] holds [c]. *)
Lemma set_component_find (n : string) (c : Constraint) (m : Model) :
  find_named n (m_constraints (set_component n c m)) = Some (Problems.named n c).
Proof.
  unfold set_component. cbn [m_constraints].
  destruct (replace_named n _ (m_constraints m)) as [cs|] eqn:E.
  - apply (replace_named_find n (Problems.named n c) _ _ Logic.eq_refl E).
  - rewrite find_named_app, (replace_named_None _ _ _ E). cbn.
    rewrite String.eqb_refl. reflexivity.
Qed.

(** ... and every other name holds what it held. *)
Lemma set_component_find_other (n n' : string) (c : Constraint) (m : Model) :
  String.eqb n' n = false ->
  find_named n (m_constraints (set_component n' c m)) = find_named n (m_constraints m).
Proof.
  intros Hne. unfold set_component. cbn [m_constraints].
  destruct (replace_named n' _ (m_constraints m)) as [cs|] eqn:E.
  - apply (replace_named_find_other n n' (Problems.named n' c) _ _ Logic.eq_refl Hne E).
  - rewrite find_named_app. destruct (find_named n (m_constraints m)); [reflexivity|].
    cbn. rewrite Hne. reflexivity.
Qed.

Lemma set_component_fixed (n : string) (c : Constraint) (m : Model) :
  find_named n (m_constraints m) = Some (Problems.named n c) ->
  set_component n c m = m.
Proof.
  intros H. unfold set_component.
  change {| c_name := n; c_lhs := c_lhs c; c_rel := c_rel c; c_rhs := c_rhs c |}
    with (Problems.named n c).
  rewrite (replace_named_same _ _ _ H). destruct m. reflexivity.
Qed.

Lemma set_component_keeps (n : string) (c : Constraint) (m : Model) :
  m_vars (set_component n c m) = m_vars m /\
  m_sense (set_component n c m) = m_sense m /\
  m_objective (set_component n c m) = m_objective m.
Proof. repeat split. Qed.

(** X11.  Pyomo stores a constraint under its attribute name and replaces
    what was stored there: running the objective-and-constraints cell of
    the rice-allocation notebook a second time (the run whose "Implicitly
    replacing the Component attribute" warnings are recorded) leaves the
    model exactly as the first run left it, whatever the model was before. *)
Theorem pyomo_cell_rerun (model : Model) :
  RiceNotebook.set_objective_and_constraints
    (RiceNotebook.set_objective_and_constraints model)
  = RiceNotebook.set_objective_and_constraints model.
Proof.
  set (M := RiceNotebook.set_objective_and_constraints model).
  assert (H1 : find_named "total_hectares_ir8" (m_constraints M)
               = Some (Problems.named "total_hectares_ir8"
                         (lin (map (fun f => 1 *: Xfr f IR8) fields) ==! 30))).
  { unfold M, RiceNotebook.set_objective_and_constraints.
    rewrite !set_component_find_other by reflexivity. apply set_component_find. }
  assert (H2 : find_named "total_hectares_cbc" (m_constraints M)
               = Some (Problems.named "total_hectares_cbc"
                         (lin (map (fun f => 1 *: Xfr f CBC) fields) ==! 20))).
  { unfold M, RiceNotebook.set_objective_and_constraints.
    rewrite !set_component_find_other by reflexivity. apply set_component_find. }
  assert (H3 : find_named "total_hectares_ir132" (m_constraints M)
               = Some (Problems.named "total_hectares_ir132"
                         (lin (map (fun f => 1 *: Xfr f IR132) fields) ==! 40))).
  { unfold M, RiceNotebook.set_objective_and_constraints.
    rewrite !set_component_find_other by reflexivity. apply set_component_find. }
  assert (H4 : find_named "total_field_i" (m_constraints M)
               = Some (Problems.named "total_field_i"
                         (lin (map (fun r => 1 *: Xfr F_I r) rice_types) ==! 25))).
  { unfold M, RiceNotebook.set_objective_and_constraints.
    rewrite !set_component_find_other by reflexivity. apply set_component_find. }
  assert (H5 : find_named "total_field_ii" (m_constraints M)
               = Some (Problems.named "total_field_ii"
                         (lin (map (fun r => 1 *: Xfr F_II r) rice_types) ==! 25))).
  { unfold M, RiceNotebook.set_objective_and_constraints.
    rewrite !set_component_find_other by reflexivity. apply set_component_find. }
  assert (H6 : find_named "total_field_iii" (m_constraints M)
               = Some (Problems.named "total_field_iii"
                         (lin (map (fun r => 1 *: Xfr F_III r) rice_types) ==! 40))).
  { unfold M, RiceNotebook.set_objective_and_constraints. apply set_component_find. }
  assert (H0 : set_objective Maximize
                 (lin (for2 fields rice_types
                         (fun f r => RiceNotebook.yield_coefficients (f, r) *: Xfr f r))) M
               = M).
  { unfold M, RiceNotebook.set_objective_and_constraints, set_component, set_objective.
    reflexivity. }
  unfold RiceNotebook.set_objective_and_constraints at 1.
  rewrite H0.
  rewrite (set_component_fixed _ _ _ H1), (set_component_fixed _ _ _ H2),
    (set_component_fixed _ _ _ H3), (set_component_fixed _ _ _ H4),
    (set_component_fixed _ _ _ H5), (set_component_fixed _ _ _ H6).
  reflexivity.
Qed.

Lemma m_constraints_rice_ortools (solver : Model) :
  m_constraints (RiceNotebook.add_objective_and_constraints solver)
  = m_constraints solver ++ rice_rows.
Proof.
  unfold RiceNotebook.add_objective_and_constraints, add_constraint, set_objective.
  cbn [m_constraints]. rewrite <- !app_assoc. reflexivity.
Qed.

(** X12.  OR-tools appends: running the objective-and-constraints cell of
    the rice-allocation notebook a second time on the same solver adds the
    six rows again, and running the scenario-b cell again adds the row
    [x[I,IR8] == 0] again; the variables, the objective and the set of
    feasible assignments are those of a single run. *)
Theorem ortools_cell_rerun (solver : Model) (a : Var -> Q) :
  let once := RiceNotebook.add_objective_and_constraints solver in
  let twice := RiceNotebook.add_objective_and_constraints once in
  List.length (m_constraints twice) = (List.length (m_constraints solver) + 12)%nat /\
  List.length (m_constraints (RiceNotebook.forbid_ir8_on_field_i
                                (RiceNotebook.forbid_ir8_on_field_i once)))
  = (List.length (m_constraints once) + 2)%nat /\
  m_vars twice = m_vars once /\
  m_objective twice = m_objective once /\
  (feasibleQ twice a <-> feasibleQ once a) /\
  (feasibleQ (RiceNotebook.forbid_ir8_on_field_i (RiceNotebook.forbid_ir8_on_field_i once)) a
   <-> feasibleQ (RiceNotebook.forbid_ir8_on_field_i once) a).
Proof.
  cbv zeta.
  split; [|split; [|split; [|split; [|split]]]].
  - rewrite !m_constraints_rice_ortools, !length_app. cbn. lia.
  - unfold RiceNotebook.forbid_ir8_on_field_i, add_constraint. cbn [m_constraints].
    rewrite !length_app. cbn. lia.
  - reflexivity.
  - reflexivity.
  - unfold feasibleQ, feasible. rewrite !m_constraints_rice_ortools, !all_hold_app.
    change (m_vars (RiceNotebook.add_objective_and_constraints
                      (RiceNotebook.add_objective_and_constraints solver)))
      with (m_vars (RiceNotebook.add_objective_and_constraints solver)).
    tauto.
  - unfold feasibleQ, feasible, RiceNotebook.forbid_ir8_on_field_i, add_constraint.
    cbn [m_constraints m_vars]. rewrite !all_hold_app. cbn [all_hold]. tauto.
Qed.

(** ** Missing back ends and rebound names *)

Lemma ortools_cell_unavailable (backend : string) (check : option string)
    (build : Model -> Model) (report : SolveResult -> list Line) (env : Env) (k : Kernel) :
  available env (Backend backend) = false ->
  ortools_cell backend check build report env k
  = mkRun (match check with Some msg => [Printed [Lit msg]] | None => [] end)
          (inl (AttributeError "solver")).
Proof.
  intros E.
  unfold ortools_cell, CreateSolver, if_not_solver_print, on_solver, Solve, bind, assign,
    lookup, is_available, call_solver, raise, print, ret.
  cbn. rewrite E. destruct check; reflexivity.
Qed.

(** X13.  When [CreateSolver] returns [None] (the back end is not linked
    in), an OR-tools cell of the eight-problem notebook prints the message
    of its [if not solver] test, if it has one, and goes on ([pass]): the
    first call on the solver ends the cell in [AttributeError], nothing is
    handed to a solver and no result is printed.  In the rice-allocation
    notebook, which has no such test, the cell that declares the variables
    ends in [AttributeError] having printed nothing. *)
Theorem ortools_backend_missing (pc : ProblemCell) (env : Env) (k : Kernel) :
  In pc ProblemCells.ortools_cells ->
  (forall b, available env (Backend b) = false) ->
  result (pc_code pc env k) = inl (AttributeError "solver") /\
  solves (pc_code pc) env k = [] /\
  prints_values (output (pc_code pc) env k) = false /\
  prints_objective (output (pc_code pc) env k) = false /\
  (output (pc_code pc) env k = [[Lit "Could not create solver GLOP"]] \/
   output (pc_code pc) env k = [[Lit "SCIP solver unavailable."]] \/
   (pc = ProblemCells.p5_ortools /\ output (pc_code pc) env k = [])) /\
  result (run_cells [RiceCells.create_solver; RiceCells.declare_x] env k)
  = inl (AttributeError "solver") /\
  trace (run_cells [RiceCells.create_solver; RiceCells.declare_x] env k) = [].
Proof.
  intros Hpc E.
  assert (Hrice : result (run_cells [RiceCells.create_solver; RiceCells.declare_x] env k)
                  = inl (AttributeError "solver") /\
                  trace (run_cells [RiceCells.create_solver; RiceCells.declare_x] env k) = []).
  { unfold run_cells, RiceCells.create_solver, RiceCells.declare_x, CreateSolver, on_solver,
      bind, assign, lookup, is_available, raise, ret.
    cbn. rewrite E. cbn. split; reflexivity. }
  unfold output, solves.
  cbv [ProblemCells.ortools_cells In] in Hpc.
  repeat match type of Hpc with
         | _ \/ _ => destruct Hpc as [<-|Hpc]
         end;
    try contradiction; unfold_cells;
    rewrite ortools_cell_unavailable by apply E; cbn;
    repeat split; try apply Hrice; auto.
Qed.

Lemma ortools_backend_missing_witness :
  result (pc_code ProblemCells.p2_ortools env_without_solvers empty_kernel)
  = inl (AttributeError "solver").
Proof.
  refine (proj1 (ortools_backend_missing ProblemCells.p2_ortools env_without_solvers
                   empty_kernel _ _)).
  - right. right. left. reflexivity.
  - intros b. reflexivity.
Defined.

(** X14.  The CPLEX cells of the rice-allocation notebook rebind the name
    [solver] to the Pyomo solver object.  On the kernel either of them
    leaves behind, the OR-tools cells that call [solver.Solve()] and
    [solver.Add(...)] end in [AttributeError]: nothing is solved and
    nothing is printed. *)
Theorem solver_name_rebound (env : Env) (k k' : Kernel) :
  result (RiceCells.cplex_a env k) = inr (tt, k') \/
  result (RiceCells.cplex_b env k) = inr (tt, k') ->
  k' "solver"%string = Some (ShellSolver "cplex" (Some RiceCells.cplex_path)) /\
  RiceCells.solve_a env k' = mkRun [] (inl (AttributeError "Solve")) /\
  RiceCells.scenario_b env k' = mkRun [] (inl (AttributeError "solver")).
Proof.
  intros H.
  assert (Hk : k' "solver"%string = Some (ShellSolver "cplex" (Some RiceCells.cplex_path))).
  { destruct H as [H|H]; revert H;
      unfold RiceCells.cplex_a, RiceCells.cplex_b, on_model, SolverFactory, pyomo_solve,
        bind, lookup, assign, is_available, call_solver, raise; cbn;
      destruct (k "model"%string) as [[]|]; cbn; try discriminate;
      destruct (available env (Executable RiceCells.cplex_path)) eqn:E; cbn;
      try discriminate; try rewrite E; cbn; try discriminate;
      rewrite print_all_run; cbn; intros H; inversion H; reflexivity. }
  split; [exact Hk|].
  unfold RiceCells.solve_a, RiceCells.scenario_b, on_solver, Solve, bind, lookup, raise.
  cbn. rewrite Hk. split; reflexivity.
Qed.

Lemma solver_name_rebound_witness :
  RiceCells.solve_a (env_answering recorded_problem1a)
    (kernel_after (RiceCells.cplex_a (env_answering recorded_problem1a)
                     (kernel_with_rice_model (env_answering recorded_problem1a)))
                  empty_kernel)
  = mkRun [] (inl (AttributeError "Solve")).
Proof.
  refine (proj1 (proj2 (solver_name_rebound (env_answering recorded_problem1a)
                          (kernel_with_rice_model (env_answering recorded_problem1a)) _ _))).
  left. reflexivity.
Defined.

(** ** Which values a cell shows *)



(** ** Rounded output *)

(** [np.around] gives an integer within 1/2 of its argument. *)
Lemma around_spec (q : Q) :
  is_integer (around q) /\ q - (1 # 2) <= around q /\ around q <= q + (1 # 2).
Proof.
  unfold around, is_integer.
  pose proof (Qfloor_le q) as Hlo.
  pose proof (Qlt_floor q) as Hhi.
  rewrite inject_Z_plus in Hhi. change (inject_Z 1) with 1 in Hhi.
  destruct (Qcompare_spec (q - inject_Z (Qfloor q)) (1 # 2)) as [E|E|E].
  - destruct (Z.even (Qfloor q)); rewrite Qfloor_Z; split; try reflexivity;
      rewrite ?inject_Z_plus; change (inject_Z 1) with 1; split; Lqa.lra.
  - rewrite Qfloor_Z. split; [reflexivity|]. split; Lqa.lra.
  - rewrite Qfloor_Z. split; [reflexivity|].
    rewrite inject_Z_plus. change (inject_Z 1) with 1. split; Lqa.lra.
Qed.

(** X16.  The SciPy cell rounds the solution vector with [np.around]
    before printing it: whatever [linprog] returns, each of the six values
    it shows is an integer at distance at most 1/2 from the value returned
    for that variable. *)
Theorem problem7_prints_rounded_values (r : SolveResult) (line : Line) (x : Var) (v : Q) :
  In line (report_problem7 r) ->
  In (ItValue x v) line ->
  v = around (r_value r x) /\
  is_integer v /\ Qabs (v - r_value r x) <= 1 # 2.
Proof.
  intros Hl Hi.
  assert (Hv : v = around (r_value r x)).
  { cbv [report_problem7 In] in Hl.
    repeat match type of Hl with
           | _ \/ _ => destruct Hl as [<-|Hl]
           end;
      try contradiction; cbv [In] in Hi;
      repeat match type of Hi with
             | _ \/ _ => destruct Hi as [Hi|Hi]
             end;
      try contradiction; try discriminate Hi; inversion Hi; reflexivity. }
  split; [exact Hv|]. subst v.
  destruct (around_spec (r_value r x)) as (Hint & Hlo & Hhi).
  split; [exact Hint|].
  apply Qabs_Qle_condition. split; Lqa.lra.
Qed.

Lemma problem7_prints_rounded_values_witness :
  is_integer (around (2.5 : Q)) /\ Qabs (around 2.5 - 2.5) <= 1 # 2.
Proof.
  refine (proj2 (problem7_prints_rounded_values
                   (answer Optimal st_ok (-51) (fun _ => 2.5))
                   [Lit "Optimal solution: FI = "; ItValue (Xi 0) (around 2.5);
                    Lit ", FII = "; ItValue (Xi 1) (around 2.5);
                    Lit ", FIII = "; ItValue (Xi 2) (around 2.5);
                    Lit ", MI = "; ItValue (Xi 3) (around 2.5);
                    Lit ", MII = "; ItValue (Xi 4) (around 2.5);
                    Lit ", MIII = "; ItValue (Xi 5) (around 2.5)]
                   (Xi 0) (around 2.5) _ _)).
  - right. right. left. reflexivity.
  - right. left. reflexivity.
Defined.

(** ** Well-formed models *)

Lemma Var_eqb_eq (x y : Var) : Var_eqb x y = true <-> x = y.
Proof.
  split.
  - destruct x as [i|i j|f r], y as [i'|i' j'|f' r']; cbn; try discriminate.
    + intros H. apply Nat.eqb_eq in H. subst. reflexivity.
    + intros H. apply andb_true_iff in H. destruct H as [H1 H2].
      apply Nat.eqb_eq in H1, H2. subst. reflexivity.
    + destruct f, f', r, r'; cbn; try discriminate; reflexivity.
  - intros <-. destruct x as [i|i j|f r]; cbn.
    + apply Nat.eqb_refl.
    + rewrite !Nat.eqb_refl. reflexivity.
    + destruct f, r; reflexivity.
Qed.

Lemma existsb_Var_eqb_In (x : Var) (xs : list Var) :
  existsb (Var_eqb x) xs = true <-> In x xs.
Proof.
  rewrite existsb_exists. split.
  - intros (y & Hy & E). apply Var_eqb_eq in E. subst. exact Hy.
  - intros H. exists x. split; [exact H|]. apply Var_eqb_eq. reflexivity.
Qed.

Lemma distinct_NoDup (xs : list Var) : distinct xs = true -> NoDup xs.
Proof.
  induction xs as [|x xs IH]; cbn; [constructor|].
  intros H. apply andb_true_iff in H. destruct H as [Hx Hd].
  constructor; [|apply IH; exact Hd].
  intros Hin. apply existsb_Var_eqb_In in Hin. rewrite Hin in Hx. discriminate Hx.
Qed.

Lemma all_models_well_formed : forallb well_formed all_models = true.
Proof. vm_compute. reflexivity. Qed.

(** X17.  In every model of every notebook each decision variable is
    declared once, and the objective and every constraint mention declared
    variables only. *)
Theorem models_use_declared_variables (m : Model) :
  In m all_models ->
  NoDup (map v_var (m_vars m)) /\
  (forall x, In x (variables_of (m_objective m)) -> In x (map v_var (m_vars m))) /\
  (forall c x, In c (m_constraints m) ->
               In x (variables_of (c_lhs c) ++ variables_of (c_rhs c)) ->
               In x (map v_var (m_vars m))).
Proof.
  intros Hm.
  pose proof all_models_well_formed as H.
  rewrite forallb_forall in H. specialize (H m Hm).
  unfold well_formed in H. rewrite !andb_true_iff in H. destruct H as [[Hd Ho] Hc].
  split; [apply distinct_NoDup; exact Hd|]. split.
  - intros x Hx. rewrite forallb_forall in Ho. apply existsb_Var_eqb_In. exact (Ho x Hx).
  - intros c x Hin Hx. rewrite forallb_forall in Hc. specialize (Hc c Hin).
    rewrite andb_true_iff, !forallb_forall in Hc. destruct Hc as [Hl Hr].
    apply existsb_Var_eqb_In. apply in_app_or in Hx.
    destruct Hx as [Hx|Hx]; [exact (Hl x Hx) | exact (Hr x Hx)].
Qed.

Lemma models_use_declared_variables_witness :
  NoDup (map v_var (m_vars Problems.LP_Problem_4)).
Proof.
  refine (proj1 (models_use_declared_variables Problems.LP_Problem_4 _)).
  cbv [all_models rice_notebook_models problems_models problems_original_models app In].
  do 15 right. left. reflexivity.
Defined.

(** ** Integrality *)



(** X19.  Rice allocation: integrality does not matter.  With the hectares
    allowed to be fractional the maximum total yield is still 585, in the
    unrestricted problem and with IR8 kept off field I. *)
Theorem rice_relaxation_optimum :
  relaxation_optimal_value RiceNotebook.ortools_a 585 /\
  relaxation_optimal_value RiceNotebook.pyomo_a 585 /\
  relaxation_optimal_value LP_Problem_8a 585 /\
  relaxation_optimal_value RiceNotebook.ortools_b 585 /\
  relaxation_optimal_value RiceNotebook.pyomo_b 585 /\
  relaxation_optimal_value LP_Problem_8b 585.
Proof.
  destruct printed_rice_ortools_attains as ([[Ha _] Va] & [[Hb _] Vb] & [[Hc _] Vc] & [[Hd _] Vd]).
  destruct printed_problem8_attains as ([[H8 _] V8] & [[H9 _] V9]).
  repeat split;
    try (exists printed_rice_ortools; split; assumption);
    try (exists printed_problem8; split; assumption);
    relax_bound.
Qed.

Lemma rice_relaxation_optimum_witness :
  objective_at RiceNotebook.ortools_a printed_rice_ortools <= 585.
Proof.
  apply (proj2 (proj1 rice_relaxation_optimum) printed_rice_ortools).
  lp_unfold; repeat split; try reflexivity; unfold Qle; cbn; lia.
Defined.

(** ** The status test that ends in [pass] *)


